(** * PrivacyLearning: a shallow embedding of the Solidity contract

    The contract [PrivacyLearning] keeps, per address, a matrix of lesson
    completion flags together with derived progress figures and a daily
    learning streak, and, globally, a catalog of learning modules.

    Storage is modelled as the contract declares it: every [mapping] is a
    finite map ([gmap]) read with Solidity's zero default, unsigned integers
    are [Z] with the checked arithmetic of Solidity 0.8 written out where a
    stored value decides whether the operation overflows, and an external
    call either returns the new storage with the events it logged or fails
    with the reason of the [require] (or the panic code) that stopped it.
    The ether balance is not part of the model, so [emergencyWithdraw] and
    the [view] functions, which leave the storage as it is, are not among
    the calls. *)

From Stdlib Require Import ZArith String List Lia.
From stdpp Require Import base option list gmap strings fin_maps fin_sets.

Open Scope Z_scope.

(** ** Failures and the result monad *)

Inductive Failure :=
  | Revert (reason : string)
  | Panic (code : Z).

Inductive Result (A : Type) :=
  | Ok (a : A)
  | Err (f : Failure).
Arguments Ok {A} a.
Arguments Err {A} f.

#[global] Instance Result_ret : MRet Result := λ A a, Ok a.
#[global] Instance Result_bind : MBind Result := λ A B k r,
  match r with
  | Ok a => k a
  | Err f => Err f
  end.

Definition require (cond : bool) (reason : string) : Result unit :=
  if cond then Ok tt else Err (Revert reason).

Definition UINT8_MAX : Z := 255.
Definition UINT32_MAX : Z := 2 ^ 32 - 1.
Definition UINT160_MAX : Z := 2 ^ 160 - 1.
Definition UINT256_MAX : Z := 2 ^ 256 - 1.

(** Checked [uint32] addition: Solidity 0.8 aborts with [Panic(0x11)] on
    overflow. *)
Definition add32 (a b : Z) : Result Z :=
  if a + b <=? UINT32_MAX then Ok (a + b) else Err (Panic 17).

(** Checked division: [Panic(0x12)] on a zero divisor. *)
Definition div32 (a b : Z) : Result Z :=
  if b =? 0 then Err (Panic 18) else Ok (a / b).

(** A [for] loop whose body may abort, run over the values of its index. *)
Fixpoint forM {A : Type} (idx : list Z) (body : Z → A → Result A) (a : A)
  : Result A :=
  match idx with
  | [] => Ok a
  | i :: idx' => a' ← body i a; forM idx' body a'
  end.

(** ** Storage *)

Definition address := Z.

Record LearningModule := mkModule {
  name : string;
  totalLessons : Z;
  isActive : bool
}.

Record StudentProgress := mkProgress {
  lessonCompleted : gmap (Z * Z) bool;
  moduleProgress : gmap Z Z;
  totalProgress : Z;
  completedLessons : Z;
  learningStreak : Z;
  lastActiveDay : Z;
  isEnrolled : bool
}.

Record State := mkState {
  studentProgress : gmap Z StudentProgress;
  learningModules : gmap Z LearningModule;
  owner : address;
  moduleCount : Z
}.

Definition LESSONS_PER_MODULE : Z := 4.

Inductive Event :=
  | StudentEnrolled (student : address)
  | LessonCompleted (student : address) (moduleId lessonId : Z)
  | ModuleCompleted (student : address) (moduleId : Z)
  | ProgressUpdated (student : address).

(** Reads of a mapping: a key never written reads as the zero value. *)
Definition zeroModule : LearningModule := mkModule "" 0 false.
Definition zeroProgress : StudentProgress := mkProgress ∅ ∅ 0 0 0 0 false.

Definition moduleAt (st : State) (m : Z) : LearningModule :=
  default zeroModule (learningModules st !! m).
Definition student (st : State) (a : address) : StudentProgress :=
  default zeroProgress (studentProgress st !! a).
Definition lessonDone (p : StudentProgress) (m l : Z) : bool :=
  default false (lessonCompleted p !! (m, l)).
Definition progressOf (p : StudentProgress) (m : Z) : Z :=
  default 0 (moduleProgress p !! m).

(** Writes of one field of a struct in storage. *)
Definition set_lessonCompleted (v : gmap (Z * Z) bool) (p : StudentProgress) :=
  mkProgress v (moduleProgress p) (totalProgress p) (completedLessons p)
    (learningStreak p) (lastActiveDay p) (isEnrolled p).
Definition set_moduleProgress (v : gmap Z Z) (p : StudentProgress) :=
  mkProgress (lessonCompleted p) v (totalProgress p) (completedLessons p)
    (learningStreak p) (lastActiveDay p) (isEnrolled p).
Definition set_totalProgress (v : Z) (p : StudentProgress) :=
  mkProgress (lessonCompleted p) (moduleProgress p) v (completedLessons p)
    (learningStreak p) (lastActiveDay p) (isEnrolled p).
Definition set_completedLessons (v : Z) (p : StudentProgress) :=
  mkProgress (lessonCompleted p) (moduleProgress p) (totalProgress p) v
    (learningStreak p) (lastActiveDay p) (isEnrolled p).
Definition set_learningStreak (v : Z) (p : StudentProgress) :=
  mkProgress (lessonCompleted p) (moduleProgress p) (totalProgress p)
    (completedLessons p) v (lastActiveDay p) (isEnrolled p).
Definition set_lastActiveDay (v : Z) (p : StudentProgress) :=
  mkProgress (lessonCompleted p) (moduleProgress p) (totalProgress p)
    (completedLessons p) (learningStreak p) v (isEnrolled p).
Definition set_isEnrolled (v : bool) (p : StudentProgress) :=
  mkProgress (lessonCompleted p) (moduleProgress p) (totalProgress p)
    (completedLessons p) (learningStreak p) (lastActiveDay p) v.

Definition set_isActive (v : bool) (x : LearningModule) :=
  mkModule (name x) (totalLessons x) v.

Definition set_student (a : address) (p : StudentProgress) (st : State) :=
  mkState (<[a := p]> (studentProgress st)) (learningModules st)
    (owner st) (moduleCount st).
Definition set_module (m : Z) (x : LearningModule) (st : State) :=
  mkState (studentProgress st) (<[m := x]> (learningModules st))
    (owner st) (moduleCount st).
Definition set_moduleCount (n : Z) (st : State) :=
  mkState (studentProgress st) (learningModules st) (owner st) n.

(** ** The contract *)

Definition initializeModules (st : State) : State :=
  let st := set_module 0 (mkModule "Cryptography Basics" LESSONS_PER_MODULE true) st in
  let st := set_module 1 (mkModule "Blockchain Fundamentals" LESSONS_PER_MODULE true) st in
  let st := set_module 2 (mkModule "Privacy Technologies" LESSONS_PER_MODULE true) st in
  let st := set_module 3 (mkModule "Advanced Applications" LESSONS_PER_MODULE true) st in
  set_moduleCount 4 st.

Definition constructor (sender : address) : State :=
  initializeModules (mkState ∅ ∅ sender 0).

Definition dayOf (timestamp : Z) : Z := timestamp / 86400.

(** [for (uint8 i = 0; i < moduleCount; i++) moduleProgress[i] = 0;]
    The index stays below [moduleCount <= 255], so [i++] cannot overflow. *)
Definition zeroModuleProgress (n : Z) (p : StudentProgress) : StudentProgress :=
  foldl (λ q i, set_moduleProgress (<[i := 0]> (moduleProgress q)) q) p (seqZ 0 n).

Definition enrollStudent (st : State) (sender : address) (timestamp : Z)
  : Result (State * list Event) :=
  _ ← require (negb (isEnrolled (student st sender))) "Already enrolled";
  let p := student st sender in
  let p := set_isEnrolled true p in
  let p := set_totalProgress 0 p in
  let p := set_completedLessons 0 p in
  let p := set_learningStreak 0 p in
  let p := set_lastActiveDay (dayOf timestamp) p in
  let p := zeroModuleProgress (moduleCount st) p in
  Ok (set_student sender p st, [StudentEnrolled sender]).

(** The count of the completed lessons of one module, over the lesson ids
    below [LESSONS_PER_MODULE]; the counter is at most 4. *)
Definition countInModule (p : StudentProgress) (m : Z) (acc : Z) : Z :=
  foldl (λ c j, if lessonDone p m j then c + 1 else c) acc
    (seqZ 0 LESSONS_PER_MODULE).

(** The count over all modules below [n]; the counter is at most 4 * 255. *)
Definition countAll (p : StudentProgress) (n : Z) : Z :=
  foldl (λ c i, countInModule p i c) 0 (seqZ 0 n).

Definition _updateProgress (st : State) (sender : address) (_moduleId : Z)
    (log : list Event) : Result (State * list Event) :=
  let p := student st sender in
  let completedInModule := countInModule p _moduleId 0 in
  let moduleProgressPercent := completedInModule * 25 in
  let p := set_moduleProgress
             (<[_moduleId := moduleProgressPercent]> (moduleProgress p)) p in
  totalModuleProgress ←
    forM (seqZ 0 (moduleCount st)) (λ i t, add32 t (progressOf p i)) 0;
  average ← div32 totalModuleProgress (moduleCount st);
  let p := set_totalProgress average p in
  let totalCompleted := countAll p (moduleCount st) in
  let p := set_completedLessons totalCompleted p in
  let log :=
    if moduleProgressPercent =? 100
    then log ++ [ModuleCompleted sender _moduleId] else log in
  Ok (set_student sender p st, log ++ [ProgressUpdated sender]).

(** The streak update of [completeLesson]. [lastActiveDay + 1] cannot
    overflow a [uint256] since [lastActiveDay < currentDay]. *)
Definition updateStreak (currentDay : Z) (_completed : bool)
    (p : StudentProgress) : Result StudentProgress :=
  if (lastActiveDay p <? currentDay) && _completed then
    p' ← (if currentDay =? lastActiveDay p + 1
          then s ← add32 (learningStreak p) 1; Ok (set_learningStreak s p)
          else Ok (set_learningStreak 1 p));
    Ok (set_lastActiveDay currentDay p')
  else Ok p.

Definition completeLesson (st : State) (sender : address) (timestamp : Z)
    (_moduleId _lessonId : Z) (_completed : bool)
  : Result (State * list Event) :=
  _ ← require (isEnrolled (student st sender)) "Student not enrolled";
  _ ← require (_moduleId <? moduleCount st) "Invalid module ID";
  _ ← require (_lessonId <? LESSONS_PER_MODULE) "Invalid lesson ID";
  _ ← require (isActive (moduleAt st _moduleId)) "Module not active";
  let p := student st sender in
  let p := set_lessonCompleted
             (<[(_moduleId, _lessonId) := _completed]> (lessonCompleted p)) p in
  let currentDay := dayOf timestamp in
  p ← updateStreak currentDay _completed p;
  _updateProgress (set_student sender p st) sender _moduleId
    [LessonCompleted sender _moduleId _lessonId].

Definition addModule (st : State) (sender : address) (_name : string)
    (_totalLessons : Z) : Result (State * list Event) :=
  _ ← require (sender =? owner st) "Only owner can call this function";
  _ ← require (moduleCount st <? 255) "Maximum modules reached";
  let st1 := set_module (moduleCount st) (mkModule _name _totalLessons true) st in
  Ok (set_moduleCount (moduleCount st + 1) st1, []).

Definition toggleModule (st : State) (sender : address) (_moduleId : Z)
  : Result (State * list Event) :=
  _ ← require (sender =? owner st) "Only owner can call this function";
  _ ← require (_moduleId <? moduleCount st) "Invalid module ID";
  let x := moduleAt st _moduleId in
  Ok (set_module _moduleId (set_isActive (negb (isActive x)) x) st, []).

(** ** The read-only functions

    A [view] function leaves the storage as it is: it returns a value or
    fails with the reason of the [require] that stopped it. *)

Definition getMyModuleProgress (st : State) (sender : address) (_moduleId : Z)
  : Result Z :=
  _ ← require (isEnrolled (student st sender)) "Student not enrolled";
  _ ← require (_moduleId <? moduleCount st) "Invalid module ID";
  Ok (progressOf (student st sender) _moduleId).

Definition getMyTotalProgress (st : State) (sender : address) : Result Z :=
  _ ← require (isEnrolled (student st sender)) "Student not enrolled";
  Ok (totalProgress (student st sender)).

Definition getMyCompletedLessons (st : State) (sender : address) : Result Z :=
  _ ← require (isEnrolled (student st sender)) "Student not enrolled";
  Ok (completedLessons (student st sender)).

Definition getMyLearningStreak (st : State) (sender : address) : Result Z :=
  _ ← require (isEnrolled (student st sender)) "Student not enrolled";
  Ok (learningStreak (student st sender)).

Definition isLessonCompleted (st : State) (sender : address)
    (_moduleId _lessonId : Z) : Result bool :=
  _ ← require (isEnrolled (student st sender)) "Student not enrolled";
  _ ← require (_moduleId <? moduleCount st) "Invalid module ID";
  _ ← require (_lessonId <? LESSONS_PER_MODULE) "Invalid lesson ID";
  Ok (lessonDone (student st sender) _moduleId _lessonId).

Definition getModuleInfo (st : State) (_moduleId : Z)
  : Result (string * Z * bool) :=
  _ ← require (_moduleId <? moduleCount st) "Invalid module ID";
  let module := moduleAt st _moduleId in
  Ok (name module, totalLessons module, isActive module).

Definition isStudentEnrolled (st : State) (_student : address) : bool :=
  isEnrolled (student st _student).

Definition getTotalModules (st : State) : Z := moduleCount st.

(** ** Transactions and reachable states *)

Inductive Call :=
  | CallEnroll
  | CallComplete (_moduleId _lessonId : Z) (_completed : bool)
  | CallAddModule (_name : string) (_totalLessons : Z)
  | CallToggle (_moduleId : Z).

Record Tx := mkTx {
  tx_sender : address;
  tx_timestamp : Z;
  tx_call : Call
}.

Definition run (st : State) (tx : Tx) : Result (State * list Event) :=
  match tx_call tx with
  | CallEnroll => enrollStudent st (tx_sender tx) (tx_timestamp tx)
  | CallComplete m l c => completeLesson st (tx_sender tx) (tx_timestamp tx) m l c
  | CallAddModule n k => addModule st (tx_sender tx) n k
  | CallToggle m => toggleModule st (tx_sender tx) m
  end.

(** A failed call is rolled back: the storage stays as it was. *)
Definition exec (st : State) (tx : Tx) : State :=
  match run st tx with
  | Ok (st', _) => st'
  | Err _ => st
  end.

Definition execs (st : State) (txs : list Tx) : State := foldl exec st txs.

Definition is_uint8 (n : Z) : Prop := 0 ≤ n ≤ UINT8_MAX.
Definition is_uint256 (n : Z) : Prop := 0 ≤ n ≤ UINT256_MAX.
Definition is_address (a : Z) : Prop := 0 ≤ a ≤ UINT160_MAX.

(** The arguments the ABI decoder lets through. *)
Definition call_wf (c : Call) : Prop :=
  match c with
  | CallEnroll => True
  | CallComplete m l _ => is_uint8 m ∧ is_uint8 l
  | CallAddModule _ k => is_uint8 k
  | CallToggle m => is_uint8 m
  end.

Definition tx_wf (tx : Tx) : Prop :=
  is_address (tx_sender tx) ∧ is_uint256 (tx_timestamp tx) ∧ call_wf (tx_call tx).

Inductive reachable : State → Prop :=
  | reachable_init (deployer : address) :
      is_address deployer → reachable (constructor deployer)
  | reachable_step (st : State) (tx : Tx) :
      reachable st → tx_wf tx → reachable (exec st tx).

(** ** What the derived fields are compared with

    The figures below are read off the completion matrix alone, the way the
    specification words them; the theorems compare the stored fields, which
    the loops of [_updateProgress] compute, with them. *)

(** The set of the (module, lesson) pairs whose flag is [true]. *)
Definition trueEntries (p : StudentProgress) : gset (Z * Z) :=
  dom (filter (λ kv, kv.2 = true) (lessonCompleted p)).

(** The number of [true] entries of module [m], over every lesson id. *)
Definition completedIn (p : StudentProgress) (m : Z) : Z :=
  Z.of_nat (size (filter (λ k, k.1 = m) (trueEntries p))).

(** The number of [true] entries of the whole matrix. *)
Definition completedTotal (p : StudentProgress) : Z :=
  Z.of_nat (size (trueEntries p)).

(** Truncated percentage of [completed] out of [total]. *)
Definition percentage (completed total : Z) : Z := completed * 100 / total.

Definition sumZ (l : list Z) : Z := foldr Z.add 0 l.

(** The sum of the stored module percentages of the modules below [n]. *)
Definition sumProgress (p : StudentProgress) (n : Z) : Z :=
  sumZ (progressOf p <$> seqZ 0 n).

Definition b2z (b : bool) : Z := if b then 1 else 0.

(** The lesson slots of module [i], and of all modules below [n]. *)
Definition row (i : Z) : list (Z * Z) := pair i <$> seqZ 0 LESSONS_PER_MODULE.
Definition grid (n : Z) : list (Z * Z) := seqZ 0 n ≫= row.

(** ** Invariant, closed forms and auxiliary notions *)

(** A slot is counted when its flag reads [true]. *)
Definition done (p : StudentProgress) (k : Z * Z) : Prop :=
  lessonDone p k.1 k.2 = true.

#[global] Instance done_dec p k : Decision (done p k).
Proof. unfold done. apply _. Defined.

(** Every completed slot lies below the module count [n] and below
    [LESSONS_PER_MODULE]. *)
Definition withinGrid (n : Z) (p : StudentProgress) : Prop :=
  ∀ k, lessonCompleted p !! k = Some true → k ∈ grid n.

Record student_inv (n : Z) (p : StudentProgress) : Prop := mkStudentInv {
  si_enrolled : isEnrolled p = true;
  si_grid : withinGrid n p;
  si_progress : ∀ m, progressOf p m = countInModule p m 0 * 25;
  si_streak : 0 ≤ learningStreak p ≤ UINT32_MAX
}.

Record inv (st : State) : Prop := mkInv {
  inv_count : 4 ≤ moduleCount st ≤ 255;
  inv_modules : ∀ m, 0 ≤ m < moduleCount st → is_Some (learningModules st !! m);
  inv_students :
    ∀ a p, studentProgress st !! a = Some p → student_inv (moduleCount st) p
}.

(** The record after the streak update. *)
Definition streaked (currentDay : Z) (c : bool) (p : StudentProgress)
  : StudentProgress :=
  if (lastActiveDay p <? currentDay) && c then
    set_lastActiveDay currentDay
      (set_learningStreak
         (if currentDay =? lastActiveDay p + 1 then learningStreak p + 1 else 1) p)
  else p.

(** The record after the recomputation for module [m], with [n] modules. *)
Definition recomputed (n m : Z) (p : StudentProgress) : StudentProgress :=
  let p1 := set_moduleProgress
              (<[m := countInModule p m 0 * 25]> (moduleProgress p)) p in
  let p2 := set_totalProgress (sumProgress p1 n / n) p1 in
  set_completedLessons (countAll p2 n) p2.

(** The events of one recomputation, after those already logged. *)
Definition progressEvents (a : address) (m : Z) (p : StudentProgress)
  : list Event :=
  (if countInModule p m 0 * 25 =? 100 then [ModuleCompleted a m] else [])
  ++ [ProgressUpdated a].

(** The streak counter is about to leave the [uint32] range. *)
Definition streakOverflows (currentDay : Z) (c : bool) (p : StudentProgress)
  : Prop :=
  c = true ∧ currentDay = lastActiveDay p + 1 ∧ learningStreak p = UINT32_MAX.

(** The sender's record once the flag of the lesson is stored. *)
Definition lessonMarked (st : State) (a : address) (m l : Z) (c : bool)
  : StudentProgress :=
  set_lessonCompleted (<[(m, l) := c]> (lessonCompleted (student st a)))
    (student st a).

(** The sender's record after a successful [completeLesson]. *)
Definition completedRecord (st : State) (a : address) (t m l : Z) (c : bool)
  : StudentProgress :=
  recomputed (moduleCount st) m (streaked (dayOf t) c (lessonMarked st a m l c)).

Ltac solve_wf :=
  repeat first
    [ apply Forall_nil | apply Forall_cons; split | split ];
  try exact I; by vm_compute.

(** A valid lesson slot of an active module of the catalog of [st]. *)
Definition openSlot (st : State) (k : Z * Z) : Prop :=
  0 ≤ k.1 < moduleCount st ∧ 0 ≤ k.2 < LESSONS_PER_MODULE
  ∧ isActive (moduleAt st k.1) = true.

(** The record of an enrolled account whose streak is still 0 and whose
    last active day is [d]. *)
Definition freshStreak (d : Z) (p : StudentProgress) : Prop :=
  isEnrolled p = true ∧ learningStreak p = 0 ∧ lastActiveDay p = d.

(** ** Concrete states *)

Definition deployer : address := 1000.
Definition alice : address := 2001.
Definition day (d : Z) : Z := d * 86400.

(** Alice enrolls on day 5 with the catalog of the constructor. *)
Definition enrolled5 : State :=
  execs (constructor deployer) [mkTx alice (day 5) CallEnroll].

(** She then completes lessons 0, 1 and 2 of module 0 on day 10. *)
Definition threeDone : State :=
  execs enrolled5
    [mkTx alice (day 10) (CallComplete 0 0 true);
     mkTx alice (day 10) (CallComplete 0 1 true);
     mkTx alice (day 10) (CallComplete 0 2 true)].

(** ... and lesson 3, the last one, on the same day. *)
Definition fourDone : State :=
  exec threeDone (mkTx alice (day 10) (CallComplete 0 3 true)).

(** The owner adds a fifth module declared with 3 lessons before Alice
    enrolls. *)
Definition shortModule : State :=
  execs (constructor deployer)
    [mkTx deployer (day 1) (CallAddModule "Zero Knowledge" 3);
     mkTx alice (day 5) CallEnroll].

Definition shortModule1 : State :=
  exec shortModule (mkTx alice (day 10) (CallComplete 4 0 true)).
Definition shortModule2 : State :=
  exec shortModule1 (mkTx alice (day 10) (CallComplete 4 1 true)).
Definition shortModule3 : State :=
  exec shortModule2 (mkTx alice (day 10) (CallComplete 4 2 true)).
Definition shortModule4 : State :=
  exec shortModule3 (mkTx alice (day 10) (CallComplete 4 3 true)).

(** The owner adds a fifth module declared with 10 lessons before Alice
    enrolls. *)
Definition longModule : State :=
  execs (constructor deployer)
    [mkTx deployer (day 1) (CallAddModule "Homomorphic Encryption" 10);
     mkTx alice (day 5) CallEnroll].

(** Alice records lesson 3 of the module declared with 3 lessons. *)
Definition shortModuleLast : State :=
  exec shortModule (mkTx alice (day 10) (CallComplete 4 3 true)).

(** Module 0 is complete in [fourDone]; Alice then records lesson 0 of it
    once more. *)
Definition fourDoneAgain : State :=
  exec fourDone (mkTx alice (day 10) (CallComplete 0 0 true)).

(** The owner adds a module declared with no lesson at all. *)
Definition emptyModule : State :=
  exec (constructor deployer) (mkTx deployer (day 1) (CallAddModule "Empty" 0)).

(** Alice enrolls on day 5 and completes lessons the same day. *)
Definition sameDay : list Tx :=
  [mkTx alice (day 5 + 60) (CallComplete 0 0 true);
   mkTx alice (day 5 + 120) (CallComplete 0 1 true);
   mkTx alice (day 5 + 180) (CallComplete 1 0 true)].

(** ** Notions used by the further properties *)

(** A call that is no [enrollStudent] or [completeLesson] of account [a]. *)
Definition foreignTo (a : address) (tx : Tx) : Prop :=
  match tx_call tx with
  | CallEnroll | CallComplete _ _ _ => tx_sender tx ≠ a
  | CallAddModule _ _ | CallToggle _ => True
  end.

(** The answers of the read-only functions to account [a] are the same in
    [st] and [st']. *)
Definition sameViews (st st' : State) (a : address) : Prop :=
  isStudentEnrolled st' a = isStudentEnrolled st a
  ∧ getMyTotalProgress st' a = getMyTotalProgress st a
  ∧ getMyCompletedLessons st' a = getMyCompletedLessons st a
  ∧ getMyLearningStreak st' a = getMyLearningStreak st a
  ∧ (∀ m, getMyModuleProgress st' a m = getMyModuleProgress st a m)
  ∧ (∀ m l, isLessonCompleted st' a m l = isLessonCompleted st a m l).

(** The totals of a record agree with its matrix: [completedLessons] is the
    number of [true] flags, and [totalProgress] is the percentage of these
    flags among the lessons of the [n0] modules there were when the totals
    were last computed. *)
Record totals_inv (n : Z) (p : StudentProgress) : Prop := mkTotalsInv {
  ti_completed : completedLessons p = completedTotal p;
  ti_total :
    ∃ n0, 4 ≤ n0 ≤ n ∧ withinGrid n0 p
          ∧ totalProgress p = 25 * completedTotal p / n0
}.

(** The two updates of [completeLesson] on a record, as one function. *)
Definition applied (n d m l : Z) (c : bool) (p : StudentProgress)
  : StudentProgress :=
  recomputed n m
    (streaked d c
       (set_lessonCompleted (<[(m, l) := c]> (lessonCompleted p)) p)).

(** ** Further concrete states *)

(** The owner toggles a module and adds one, and Bob enrolls and completes
    a lesson, after Alice completed module 0. *)
Definition bob : address := 2002.
Definition othersAct : list Tx :=
  [mkTx deployer (day 11) (CallToggle 0);
   mkTx deployer (day 11) (CallAddModule "Zero Knowledge" 6);
   mkTx bob (day 12) CallEnroll;
   mkTx bob (day 12) (CallComplete 1 2 true)].

(** The owner deactivates module 0, which Alice has completed. *)
Definition moduleClosed : State :=
  exec fourDone (mkTx deployer (day 11) (CallToggle 0)).

(** ** The result monad *)

Lemma bind_Ok {A B} (r : Result A) (k : A → Result B) (b : B) :
  r ≫= k = Ok b ↔ ∃ a, r = Ok a ∧ k a = Ok b.
Proof.
  destruct r as [a|f]; simpl; split.
  - intros H. by exists a.
  - by intros (a' & [= ->] & H).
  - intros H. discriminate H.
  - intros (a' & H & _). discriminate H.
Qed.

Lemma require_Ok cond reason u : require cond reason = Ok u ↔ cond = true.
Proof. destruct cond, u; simpl; split; intros H; done. Qed.

Lemma add32_Ok a b : a + b ≤ UINT32_MAX → add32 a b = Ok (a + b).
Proof. intros H. unfold add32. by rewrite (proj2 (Z.leb_le _ _) H). Qed.

Lemma add32_Panic a b : UINT32_MAX < a + b → add32 a b = Err (Panic 17).
Proof. intros H. unfold add32. by rewrite (proj2 (Z.leb_gt _ _) H). Qed.

Lemma forM_sum (f : Z → Z) (l : list Z) (a : Z) :
  (∀ i, i ∈ l → 0 ≤ f i ≤ 100) →
  0 ≤ a →
  a + 100 * Z.of_nat (length l) ≤ UINT32_MAX →
  forM l (λ i t, add32 t (f i)) a = Ok (a + sumZ (f <$> l)).
Proof.
  revert a. induction l as [|i l IH]; intros a Hf Ha Hmax.
  - simpl. f_equal. lia.
  - assert (0 ≤ f i ≤ 100) as Hi by (apply Hf; left).
    cbn [length] in Hmax. rewrite Nat2Z.inj_succ in Hmax.
    cbn [forM fmap list_fmap sumZ foldr].
    assert (a + f i ≤ UINT32_MAX) as Hle by lia.
    rewrite (add32_Ok _ _ Hle). simpl.
    rewrite IH.
    + f_equal. unfold sumZ. lia.
    + intros j Hj. apply Hf. by right.
    + lia.
    + lia.
Qed.

(** ** The counting loops *)

Lemma seqZ_lessons : seqZ 0 LESSONS_PER_MODULE = [0; 1; 2; 3].
Proof. reflexivity. Qed.

Lemma countInModule_sum p m acc :
  countInModule p m acc =
  acc + b2z (lessonDone p m 0) + b2z (lessonDone p m 1)
      + b2z (lessonDone p m 2) + b2z (lessonDone p m 3).
Proof.
  unfold countInModule. rewrite seqZ_lessons. simpl.
  destruct (lessonDone p m 0), (lessonDone p m 1),
    (lessonDone p m 2), (lessonDone p m 3); simpl; lia.
Qed.

Lemma countInModule_range p m : 0 ≤ countInModule p m 0 ≤ 4.
Proof.
  rewrite countInModule_sum.
  destruct (lessonDone p m 0), (lessonDone p m 1),
    (lessonDone p m 2), (lessonDone p m 3); simpl; lia.
Qed.

Lemma filter_done_cons p k (l : list (Z * Z)) :
  Z.of_nat (length (filter (done p) (k :: l))) =
  b2z (lessonDone p k.1 k.2) + Z.of_nat (length (filter (done p) l)).
Proof.
  rewrite filter_cons. destruct (decide (done p k)) as [Hk|Hk]; unfold done in Hk.
  - rewrite Hk. cbn [length b2z]. lia.
  - apply not_true_is_false in Hk. rewrite Hk. simpl. lia.
Qed.

Lemma row_filter_length p i :
  Z.of_nat (length (filter (done p) (row i))) = countInModule p i 0.
Proof.
  rewrite countInModule_sum. unfold row. rewrite seqZ_lessons.
  cbn [fmap list_fmap]. rewrite !filter_done_cons, filter_nil. simpl. lia.
Qed.

Lemma countInModule_acc p i acc :
  countInModule p i acc = acc + countInModule p i 0.
Proof. rewrite !countInModule_sum. lia. Qed.

Lemma countAll_fold p (l : list Z) acc :
  foldl (λ c i, countInModule p i c) acc l =
  acc + Z.of_nat (length (filter (done p) (l ≫= row))).
Proof.
  revert acc. induction l as [|i l IH]; intros acc; [simpl; lia|].
  cbn [foldl]. rewrite bind_cons.
  rewrite IH, filter_app, length_app, Nat2Z.inj_add, row_filter_length.
  rewrite (countInModule_acc p i acc). lia.
Qed.

Lemma countAll_grid p n :
  countAll p n = Z.of_nat (length (filter (done p) (grid n))).
Proof. unfold countAll, grid. by rewrite countAll_fold. Qed.

Lemma NoDup_row i : NoDup (row i).
Proof.
  unfold row. apply NoDup_fmap_2; [|apply NoDup_seqZ].
  intros x y [= ->]. reflexivity.
Qed.

Lemma elem_of_row i k : k ∈ row i ↔ k.1 = i ∧ 0 ≤ k.2 < LESSONS_PER_MODULE.
Proof.
  unfold row. rewrite list_elem_of_fmap. split.
  - intros (j & -> & Hj). apply elem_of_seqZ in Hj. simpl. lia.
  - intros [<- Hk]. exists k.2. split; [by destruct k|].
    apply elem_of_seqZ. lia.
Qed.

Lemma elem_of_grid n k :
  k ∈ grid n ↔ 0 ≤ k.1 < n ∧ 0 ≤ k.2 < LESSONS_PER_MODULE.
Proof.
  unfold grid. rewrite list_elem_of_bind. split.
  - intros (i & Hk & Hi). apply elem_of_row in Hk as [<- Hk].
    apply elem_of_seqZ in Hi. lia.
  - intros [Hi Hk]. exists k.1. split.
    + by apply elem_of_row.
    + apply elem_of_seqZ. lia.
Qed.

Lemma NoDup_grid n : NoDup (grid n).
Proof.
  unfold grid. apply NoDup_bind.
  - intros i j k _ _ Hi Hj.
    apply elem_of_row in Hi as [<- _]. by apply elem_of_row in Hj as [<- _].
  - intros i _. apply NoDup_row.
  - apply NoDup_seqZ.
Qed.

(** ** The matrix read as a set of completed slots *)

Lemma elem_of_trueEntries p k :
  k ∈ trueEntries p ↔ lessonCompleted p !! k = Some true.
Proof.
  unfold trueEntries. rewrite elem_of_dom. split.
  - intros [b Hb]. apply map_lookup_filter_Some in Hb as [Hb Hp].
    simpl in Hp. by subst b.
  - intros Hk. exists true. by apply map_lookup_filter_Some.
Qed.

Lemma done_lookup p k : done p k ↔ lessonCompleted p !! k = Some true.
Proof.
  unfold done, lessonDone. destruct k as [m l]. simpl.
  destruct (lessonCompleted p !! (m, l)) as [[]|]; simpl; split; congruence.
Qed.

Lemma trueEntries_grid n p :
  withinGrid n p → trueEntries p = list_to_set (filter (done p) (grid n)).
Proof.
  intros Hg. apply set_eq. intros k.
  rewrite elem_of_trueEntries, elem_of_list_to_set, list_elem_of_filter, done_lookup.
  split; [|tauto]. intros Hk. split; [done|]. by apply Hg.
Qed.

Lemma completedTotal_countAll n p :
  withinGrid n p → completedTotal p = countAll p n.
Proof.
  intros Hg. unfold completedTotal. rewrite (trueEntries_grid n p Hg).
  rewrite size_list_to_set by (apply NoDup_filter, NoDup_grid).
  by rewrite countAll_grid.
Qed.

Lemma completedIn_countInModule n p m :
  withinGrid n p → completedIn p m = countInModule p m 0.
Proof.
  intros Hg. unfold completedIn.
  assert (filter (λ k : Z * Z, k.1 = m) (trueEntries p)
          = list_to_set (filter (done p) (row m))) as ->.
  { apply set_eq. intros k.
    rewrite elem_of_filter, elem_of_trueEntries, elem_of_list_to_set,
      list_elem_of_filter, done_lookup, elem_of_row.
    split; [|tauto]. intros [Hm Hk]. split; [done|]. split; [done|].
    apply Hg, elem_of_grid in Hk. tauto. }
  rewrite size_list_to_set by (apply NoDup_filter, NoDup_row).
  apply row_filter_length.
Qed.

(** ** The invariant of the reachable states *)

Lemma withinGrid_mono n n' p : n ≤ n' → withinGrid n p → withinGrid n' p.
Proof.
  intros Hn Hg k Hk. apply Hg, elem_of_grid in Hk. apply elem_of_grid. lia.
Qed.

Lemma student_not_enrolled st a :
  inv st → isEnrolled (student st a) = false → studentProgress st !! a = None.
Proof.
  intros Hinv He. unfold student in He.
  destruct (studentProgress st !! a) as [p|] eqn:Hp; [|done].
  apply (inv_students st Hinv) in Hp. simpl in He.
  rewrite (si_enrolled _ _ Hp) in He. discriminate He.
Qed.

Lemma student_enrolled st a :
  isEnrolled (student st a) = true →
  studentProgress st !! a = Some (student st a).
Proof.
  unfold student. destruct (studentProgress st !! a); simpl; [done|].
  intros H. discriminate H.
Qed.

Lemma student_inv_of st a :
  inv st → isEnrolled (student st a) = true →
  student_inv (moduleCount st) (student st a).
Proof.
  intros Hinv He. apply (inv_students st Hinv a). by apply student_enrolled.
Qed.

Lemma student_set_eq a p st : student (set_student a p st) a = p.
Proof. unfold student, set_student. simpl. by rewrite lookup_insert_eq. Qed.

Lemma student_set_ne a b p st :
  a ≠ b → student (set_student a p st) b = student st b.
Proof.
  intros Hab. unfold student, set_student. simpl. by rewrite lookup_insert_ne.
Qed.

(** *** The zeroing loop of [enrollStudent] *)

Lemma zeroModuleProgress_fields n p :
  let q := zeroModuleProgress n p in
  lessonCompleted q = lessonCompleted p ∧ totalProgress q = totalProgress p
  ∧ completedLessons q = completedLessons p
  ∧ learningStreak q = learningStreak p ∧ lastActiveDay q = lastActiveDay p
  ∧ isEnrolled q = isEnrolled p.
Proof.
  unfold zeroModuleProgress. generalize (seqZ 0 n). intros l. revert p.
  induction l as [|i l IH]; intros p; simpl; [done|].
  destruct (IH (set_moduleProgress (<[i:=0]> (moduleProgress p)) p))
    as (-> & -> & -> & -> & -> & ->). done.
Qed.

Lemma zeroModuleProgress_progress n p m :
  (∀ i, progressOf p i = 0) → progressOf (zeroModuleProgress n p) m = 0.
Proof.
  unfold zeroModuleProgress. generalize (seqZ 0 n). intros l. revert p.
  induction l as [|i l IH]; intros p Hp; simpl; [done|].
  apply IH. intros j. unfold progressOf. simpl.
  destruct (decide (i = j)) as [->|Hij].
  - by rewrite lookup_insert_eq.
  - rewrite lookup_insert_ne by done. apply Hp.
Qed.

(** ** Closed forms of the two updates of [completeLesson] *)

Lemma updateStreak_inv d c p p' :
  updateStreak d c p = Ok p' → p' = streaked d c p.
Proof.
  unfold updateStreak, streaked, add32.
  destruct ((lastActiveDay p <? d) && c); [|by intros [= <-]].
  destruct (d =? lastActiveDay p + 1); [|by intros [= <-]].
  destruct (learningStreak p + 1 <=? UINT32_MAX); simpl; [by intros [= <-]|].
  intros H. discriminate H.
Qed.

Lemma updateStreak_Ok d c p :
  learningStreak p ≤ UINT32_MAX → ¬ streakOverflows d c p →
  updateStreak d c p = Ok (streaked d c p).
Proof.
  intros Hs Hno. unfold updateStreak, streaked.
  destruct (lastActiveDay p <? d) eqn:Hd; [|done]. destruct c; [|done]. simpl.
  destruct (d =? lastActiveDay p + 1) eqn:Hn; [|done].
  apply Z.eqb_eq in Hn. rewrite add32_Ok; [done|].
  destruct (decide (learningStreak p = UINT32_MAX)) as [Hm|Hm]; [|lia].
  exfalso. apply Hno. done.
Qed.

Lemma updateStreak_Panic d c p :
  streakOverflows d c p → updateStreak d c p = Err (Panic 17).
Proof.
  intros (-> & -> & Hs). unfold updateStreak.
  rewrite (proj2 (Z.ltb_lt _ _)) by lia. simpl.
  rewrite Z.eqb_refl. rewrite add32_Panic; [done|lia].
Qed.

Lemma streaked_range d c p :
  updateStreak d c p = Ok (streaked d c p) →
  0 ≤ learningStreak p ≤ UINT32_MAX →
  0 ≤ learningStreak (streaked d c p) ≤ UINT32_MAX.
Proof.
  unfold updateStreak, streaked, add32.
  destruct ((lastActiveDay p <? d) && c); [|done].
  destruct (d =? lastActiveDay p + 1); simpl.
  - destruct (learningStreak p + 1 <=? UINT32_MAX) eqn:Hle; simpl.
    + apply Z.leb_le in Hle. lia.
    + intros H. discriminate H.
  - intros _ _. unfold UINT32_MAX. lia.
Qed.

Lemma streaked_fields d c p :
  lessonCompleted (streaked d c p) = lessonCompleted p
  ∧ moduleProgress (streaked d c p) = moduleProgress p
  ∧ isEnrolled (streaked d c p) = isEnrolled p.
Proof. unfold streaked. by destruct ((lastActiveDay p <? d) && c). Qed.

Lemma forM_sum_inv (f : Z → Z) (l : list Z) (a r : Z) :
  forM l (λ i t, add32 t (f i)) a = Ok r → r = a + sumZ (f <$> l).
Proof.
  revert a. induction l as [|i l IH]; intros a.
  - simpl. intros [= <-]. lia.
  - cbn [forM fmap list_fmap]. intros H.
    apply bind_Ok in H as (a' & Ha' & H). apply IH in H.
    unfold add32 in Ha'. destruct (a + f i <=? UINT32_MAX); [|discriminate Ha'].
    injection Ha' as <-. unfold sumZ in *. cbn [foldr]. lia.
Qed.

Lemma progressEvents_log (log : list Event) a m p :
  (if countInModule p m 0 * 25 =? 100
   then log ++ [ModuleCompleted a m] else log) ++ [ProgressUpdated a]
  = log ++ progressEvents a m p.
Proof.
  unfold progressEvents. destruct (countInModule p m 0 * 25 =? 100).
  - by rewrite <- app_assoc.
  - done.
Qed.

Lemma _updateProgress_inv st a m log st' evs :
  _updateProgress st a m log = Ok (st', evs) →
  moduleCount st ≠ 0
  ∧ st' = set_student a (recomputed (moduleCount st) m (student st a)) st
  ∧ evs = log ++ progressEvents a m (student st a).
Proof.
  unfold _updateProgress. intros H.
  apply bind_Ok in H as (total & Htotal & H).
  apply bind_Ok in H as (avg & Havg & H).
  apply forM_sum_inv in Htotal. unfold div32 in Havg.
  destruct (moduleCount st =? 0) eqn:Hn; [discriminate Havg|].
  apply Z.eqb_neq in Hn. injection Havg as <-. injection H as <- <-.
  split; [done|]. rewrite progressEvents_log. split; [|done].
  rewrite Z.add_0_l in Htotal. by rewrite Htotal.
Qed.

Lemma _updateProgress_Ok st a m log :
  1 ≤ moduleCount st ≤ 255 →
  (∀ i, i ≠ m → 0 ≤ progressOf (student st a) i ≤ 100) →
  _updateProgress st a m log =
  Ok (set_student a (recomputed (moduleCount st) m (student st a)) st,
      log ++ progressEvents a m (student st a)).
Proof.
  intros Hn Hp. unfold _updateProgress.
  rewrite forM_sum.
  - rewrite Z.add_0_l. simpl. unfold div32.
    rewrite (proj2 (Z.eqb_neq (moduleCount st) 0)) by lia. simpl.
    by rewrite progressEvents_log.
  - intros i _. specialize (Hp i). unfold progressOf in *.
    cbn [moduleProgress set_moduleProgress].
    destruct (decide (m = i)) as [->|Hi].
    + rewrite !lookup_insert_eq. unfold default, from_option, id.
      pose proof (countInModule_range (student st a) i). lia.
    + rewrite !lookup_insert_ne by done. apply Hp. congruence.
  - done.
  - rewrite length_seqZ. unfold UINT32_MAX. lia.
Qed.

(** ** [completeLesson] as a whole *)

Lemma bind_ret_l {A B} (a : A) (k : A → Result B) : Ok a ≫= k = k a.
Proof. reflexivity. Qed.

Lemma require_true {B} reason (k : unit → Result B) :
  require true reason ≫= k = k tt.
Proof. reflexivity. Qed.

Lemma set_student_twice a p q st :
  set_student a p (set_student a q st) = set_student a p st.
Proof. unfold set_student. simpl. by rewrite insert_insert_eq. Qed.

Lemma lessonDone_ext p q m l :
  lessonCompleted p = lessonCompleted q → lessonDone p m l = lessonDone q m l.
Proof. unfold lessonDone. by intros ->. Qed.

Lemma countInModule_ext p q m acc :
  lessonCompleted p = lessonCompleted q →
  countInModule p m acc = countInModule q m acc.
Proof.
  intros H. rewrite !countInModule_sum.
  by rewrite !(lessonDone_ext p q _ _ H).
Qed.

Lemma completeLesson_inv st a t m l c st' evs :
  completeLesson st a t m l c = Ok (st', evs) →
  isEnrolled (student st a) = true
  ∧ m < moduleCount st
  ∧ l < LESSONS_PER_MODULE
  ∧ isActive (moduleAt st m) = true
  ∧ updateStreak (dayOf t) c (lessonMarked st a m l c)
    = Ok (streaked (dayOf t) c (lessonMarked st a m l c))
  ∧ st' = set_student a (completedRecord st a t m l c) st
  ∧ evs = LessonCompleted a m l
          :: progressEvents a m (lessonMarked st a m l c).
Proof.
  unfold completeLesson. intros H.
  apply bind_Ok in H as (u1 & He & H). apply require_Ok in He.
  apply bind_Ok in H as (u2 & Hm & H). apply require_Ok, Z.ltb_lt in Hm.
  apply bind_Ok in H as (u3 & Hl & H). apply require_Ok, Z.ltb_lt in Hl.
  apply bind_Ok in H as (u4 & Ha & H). apply require_Ok in Ha.
  apply bind_Ok in H as (p1 & Hs & H).
  fold (lessonMarked st a m l c) in Hs.
  pose proof (updateStreak_inv _ _ _ _ Hs) as ->.
  apply _updateProgress_inv in H as (_ & -> & ->).
  rewrite student_set_eq, set_student_twice.
  repeat (split; [done|]). simpl. f_equal. unfold progressEvents.
  by rewrite (countInModule_ext _ (lessonMarked st a m l c) m 0
                (proj1 (streaked_fields _ _ _))).
Qed.

Lemma completeLesson_Ok st a t m l c :
  inv st →
  isEnrolled (student st a) = true →
  m < moduleCount st →
  l < LESSONS_PER_MODULE →
  isActive (moduleAt st m) = true →
  ¬ streakOverflows (dayOf t) c (student st a) →
  completeLesson st a t m l c =
  Ok (set_student a (completedRecord st a t m l c) st,
      LessonCompleted a m l :: progressEvents a m (lessonMarked st a m l c)).
Proof.
  intros Hinv He Hm Hl Ha Hno.
  pose proof (student_inv_of st a Hinv He) as Hp.
  unfold completeLesson.
  rewrite He, require_true.
  rewrite (proj2 (Z.ltb_lt m _) Hm), require_true.
  rewrite (proj2 (Z.ltb_lt l _) Hl), require_true.
  rewrite Ha, require_true.
  fold (lessonMarked st a m l c).
  rewrite updateStreak_Ok, bind_ret_l.
  - rewrite _updateProgress_Ok.
    + rewrite student_set_eq, set_student_twice. simpl. do 3 f_equal.
      unfold progressEvents.
      by rewrite (countInModule_ext _ (lessonMarked st a m l c) m 0
                    (proj1 (streaked_fields _ _ _))).
    + pose proof (inv_count st Hinv). simpl. lia.
    + intros i _. rewrite student_set_eq. unfold progressOf.
      rewrite (proj1 (proj2 (streaked_fields _ _ _))). simpl.
      fold (progressOf (student st a) i). rewrite (si_progress _ _ Hp).
      pose proof (countInModule_range (student st a) i). lia.
  - simpl. apply (si_streak _ _ Hp).
  - exact Hno.
Qed.

Lemma recomputed_fields n m p :
  let q := recomputed n m p in
  lessonCompleted q = lessonCompleted p
  ∧ moduleProgress q = <[m := countInModule p m 0 * 25]> (moduleProgress p)
  ∧ totalProgress q = sumProgress q n / n
  ∧ completedLessons q = countAll q n
  ∧ learningStreak q = learningStreak p
  ∧ lastActiveDay q = lastActiveDay p
  ∧ isEnrolled q = isEnrolled p.
Proof. repeat split. Qed.

Lemma completedRecord_matrix st a t m l c :
  lessonCompleted (completedRecord st a t m l c)
  = <[(m, l) := c]> (lessonCompleted (student st a)).
Proof.
  unfold completedRecord.
  rewrite (proj1 (recomputed_fields _ _ _)).
  by rewrite (proj1 (streaked_fields _ _ _)).
Qed.

Lemma completedRecord_progress st a t m l c i :
  progressOf (completedRecord st a t m l c) i =
  if decide (m = i)
  then countInModule (completedRecord st a t m l c) m 0 * 25
  else progressOf (student st a) i.
Proof.
  unfold progressOf, completedRecord.
  rewrite (proj1 (proj2 (recomputed_fields _ _ _))).
  rewrite (proj1 (proj2 (streaked_fields _ _ _))).
  destruct (decide (m = i)) as [->|Hi].
  - rewrite lookup_insert_eq. reflexivity.
  - by rewrite lookup_insert_ne.
Qed.

Lemma completedRecord_streak st a t m l c :
  learningStreak (completedRecord st a t m l c)
  = learningStreak (streaked (dayOf t) c (student st a))
  ∧ lastActiveDay (completedRecord st a t m l c)
    = lastActiveDay (streaked (dayOf t) c (student st a)).
Proof.
  unfold completedRecord, streaked, lessonMarked. simpl.
  by destruct ((lastActiveDay (student st a) <? dayOf t) && c).
Qed.

Lemma completedRecord_enrolled st a t m l c :
  isEnrolled (completedRecord st a t m l c) = isEnrolled (student st a).
Proof.
  unfold completedRecord, streaked, lessonMarked. simpl.
  by destruct ((lastActiveDay (student st a) <? dayOf t) && c).
Qed.

Lemma lessonDone_other_module p q m l c i j :
  lessonCompleted q = <[(m, l) := c]> (lessonCompleted p) →
  i ≠ m → lessonDone q i j = lessonDone p i j.
Proof.
  intros Hq Hi. unfold lessonDone. rewrite Hq.
  rewrite lookup_insert_ne; [done|]. intros [= -> _]. done.
Qed.

Lemma countInModule_other_module p q m l c i acc :
  lessonCompleted q = <[(m, l) := c]> (lessonCompleted p) →
  i ≠ m → countInModule q i acc = countInModule p i acc.
Proof.
  intros Hq Hi. rewrite !countInModule_sum.
  by rewrite !(lessonDone_other_module p q m l c i _ Hq Hi).
Qed.

(** ** The invariant holds in every reachable state *)

Lemma inv_constructor deployer : inv (constructor deployer).
Proof.
  split; simpl.
  - lia.
  - intros m Hm.
    assert (m = 0 ∨ m = 1 ∨ m = 2 ∨ m = 3) as [-> | [-> | [-> | ->]]] by lia;
      by eexists.
  - intros a p Hp. by rewrite lookup_empty in Hp.
Qed.

Lemma enrollStudent_inv st a t st' evs :
  enrollStudent st a t = Ok (st', evs) →
  isEnrolled (student st a) = false
  ∧ st' = set_student a
            (zeroModuleProgress (moduleCount st)
               (set_lastActiveDay (dayOf t)
                  (set_learningStreak 0
                     (set_completedLessons 0
                        (set_totalProgress 0
                           (set_isEnrolled true (student st a))))))) st
  ∧ evs = [StudentEnrolled a].
Proof.
  unfold enrollStudent. intros H.
  apply bind_Ok in H as (u & He & H). apply require_Ok in He.
  apply negb_true_iff in He. by injection H as <- <-.
Qed.

Lemma inv_enrollStudent st a t st' evs :
  inv st → enrollStudent st a t = Ok (st', evs) → inv st'.
Proof.
  intros Hinv H. apply enrollStudent_inv in H as (He & -> & _).
  pose proof (student_not_enrolled st a Hinv He) as Hnone.
  assert (student st a = zeroProgress) as Hz by (unfold student; by rewrite Hnone).
  rewrite Hz. split; simpl.
  - apply (inv_count st Hinv).
  - apply (inv_modules st Hinv).
  - intros b p Hp. destruct (decide (a = b)) as [<-|Hab].
    + rewrite lookup_insert_eq in Hp. injection Hp as <-.
      match goal with |- student_inv _ (zeroModuleProgress ?n ?p0) =>
        destruct (zeroModuleProgress_fields n p0)
          as (Hm & _ & _ & Hs & _ & Hen);
        pose proof (zeroModuleProgress_progress n p0) as Hpr
      end.
      split.
      * by rewrite Hen.
      * intros k Hk. rewrite Hm in Hk. simpl in Hk.
        by rewrite lookup_empty in Hk.
      * intros m. rewrite Hpr by done.
        rewrite countInModule_sum. unfold lessonDone. rewrite Hm. simpl.
        by rewrite !lookup_empty.
      * rewrite Hs. simpl. unfold UINT32_MAX. lia.
    + rewrite lookup_insert_ne in Hp by done.
      apply (inv_students st Hinv b p Hp).
Qed.

Lemma inv_completeLesson st a t m l c st' evs :
  inv st → 0 ≤ m → 0 ≤ l →
  completeLesson st a t m l c = Ok (st', evs) → inv st'.
Proof.
  intros Hinv Hm0 Hl0 H.
  apply completeLesson_inv in H as (He & Hm & Hl & _ & Hs & -> & _).
  pose proof (student_inv_of st a Hinv He) as Hp.
  split; simpl.
  - apply (inv_count st Hinv).
  - apply (inv_modules st Hinv).
  - intros b p Hb. destruct (decide (a = b)) as [<-|Hab].
    + rewrite lookup_insert_eq in Hb. injection Hb as <-. split.
      * rewrite completedRecord_enrolled. exact He.
      * intros k Hk. rewrite completedRecord_matrix in Hk.
        destruct (decide ((m, l) = k)) as [<-|Hne].
        -- apply elem_of_grid. simpl. lia.
        -- rewrite lookup_insert_ne in Hk by done.
           by apply (si_grid _ _ Hp).
      * intros i. rewrite completedRecord_progress.
        destruct (decide (m = i)) as [->|Hi]; [done|].
        rewrite (si_progress _ _ Hp). f_equal. symmetry.
        apply (countInModule_other_module _ _ m l c).
        -- apply completedRecord_matrix.
        -- congruence.
      * unfold completedRecord.
        rewrite (proj1 (proj2 (proj2 (proj2 (proj2
                   (recomputed_fields _ _ _)))))).
        apply streaked_range; [exact Hs|]. simpl. apply (si_streak _ _ Hp).
    + rewrite lookup_insert_ne in Hb by done.
      apply (inv_students st Hinv b p Hb).
Qed.

Lemma addModule_inv st a nm k st' evs :
  addModule st a nm k = Ok (st', evs) →
  a = owner st ∧ moduleCount st < 255
  ∧ st' = set_moduleCount (moduleCount st + 1)
            (set_module (moduleCount st) (mkModule nm k true) st)
  ∧ evs = [].
Proof.
  unfold addModule. intros H.
  apply bind_Ok in H as (u1 & Ho & H). apply require_Ok, Z.eqb_eq in Ho.
  apply bind_Ok in H as (u2 & Hc & H). apply require_Ok, Z.ltb_lt in Hc.
  by injection H as <- <-.
Qed.

Lemma toggleModule_inv st a m st' evs :
  toggleModule st a m = Ok (st', evs) →
  a = owner st ∧ m < moduleCount st
  ∧ st' = set_module m
            (set_isActive (negb (isActive (moduleAt st m))) (moduleAt st m)) st
  ∧ evs = [].
Proof.
  unfold toggleModule. intros H.
  apply bind_Ok in H as (u1 & Ho & H). apply require_Ok, Z.eqb_eq in Ho.
  apply bind_Ok in H as (u2 & Hc & H). apply require_Ok, Z.ltb_lt in Hc.
  by injection H as <- <-.
Qed.

Lemma student_inv_mono n n' p : n ≤ n' → student_inv n p → student_inv n' p.
Proof.
  intros Hn [He Hg Hp Hs]. split; try done. by apply (withinGrid_mono n).
Qed.

Lemma inv_addModule st a nm k st' evs :
  inv st → addModule st a nm k = Ok (st', evs) → inv st'.
Proof.
  intros Hinv H. apply addModule_inv in H as (_ & Hc & -> & _).
  pose proof (inv_count st Hinv). split; simpl.
  - lia.
  - intros m Hm. destruct (decide (moduleCount st = m)) as [->|Hne].
    + rewrite lookup_insert_eq. by eexists.
    + rewrite lookup_insert_ne by done. apply (inv_modules st Hinv). lia.
  - intros b p Hb. apply (student_inv_mono (moduleCount st)); [lia|].
    apply (inv_students st Hinv b p Hb).
Qed.

Lemma inv_toggleModule st a m st' evs :
  inv st → toggleModule st a m = Ok (st', evs) → inv st'.
Proof.
  intros Hinv H. apply toggleModule_inv in H as (_ & Hc & -> & _).
  split; simpl.
  - apply (inv_count st Hinv).
  - intros i Hi. destruct (decide (m = i)) as [->|Hne].
    + rewrite lookup_insert_eq. by eexists.
    + rewrite lookup_insert_ne by done. by apply (inv_modules st Hinv).
  - apply (inv_students st Hinv).
Qed.

Lemma inv_exec st tx : inv st → tx_wf tx → inv (exec st tx).
Proof.
  intros Hinv (_ & _ & Hc). unfold exec.
  destruct (run st tx) as [[st' evs]|f] eqn:Hrun; [|done].
  unfold run in Hrun. destruct (tx_call tx) as [|m l c|nm k|m]; simpl in Hc.
  - by apply (inv_enrollStudent _ _ _ _ _ Hinv Hrun).
  - destruct Hc as [[Hm _] [Hl _]].
    by apply (inv_completeLesson _ _ _ _ _ _ _ _ Hinv Hm Hl Hrun).
  - by apply (inv_addModule _ _ _ _ _ _ Hinv Hrun).
  - by apply (inv_toggleModule _ _ _ _ _ Hinv Hrun).
Qed.

Lemma reachable_inv st : reachable st → inv st.
Proof.
  induction 1 as [deployer _|st tx _ IH Hwf].
  - apply inv_constructor.
  - by apply inv_exec.
Qed.

Lemma reachable_execs st txs :
  reachable st → Forall tx_wf txs → reachable (execs st txs).
Proof.
  intros Hr Hwf. revert st Hr. unfold execs.
  induction Hwf as [|tx txs Htx _ IH]; intros st Hr; simpl; [done|].
  apply IH. by apply reachable_step.
Qed.

(** ** Enrollment is never undone, and other accounts are left alone *)

Lemma run_enrolled st tx st' evs a :
  run st tx = Ok (st', evs) →
  isEnrolled (student st a) = true → isEnrolled (student st' a) = true.
Proof.
  unfold run. intros Hrun He.
  destruct (tx_call tx) as [|m l c|nm k|m].
  - apply enrollStudent_inv in Hrun as (Hb & -> & _).
    destruct (decide (tx_sender tx = a)) as [Heq|Hne];
      [rewrite Heq in Hb; congruence|].
    by rewrite student_set_ne.
  - apply completeLesson_inv in Hrun as (_ & _ & _ & _ & _ & -> & _).
    destruct (decide (tx_sender tx = a)) as [Heq|Hne].
    + rewrite Heq, student_set_eq. by rewrite completedRecord_enrolled.
    + by rewrite student_set_ne.
  - by apply addModule_inv in Hrun as (_ & _ & -> & _).
  - by apply toggleModule_inv in Hrun as (_ & _ & -> & _).
Qed.

Lemma exec_enrolled st tx a :
  isEnrolled (student st a) = true → isEnrolled (student (exec st tx) a) = true.
Proof.
  intros He. unfold exec.
  destruct (run st tx) as [[st' evs]|f] eqn:Hrun; [|done].
  by apply (run_enrolled st tx st' evs).
Qed.

Lemma execs_enrolled st txs a :
  isEnrolled (student st a) = true →
  isEnrolled (student (execs st txs) a) = true.
Proof.
  revert st. unfold execs. induction txs as [|tx txs IH]; intros st He; simpl.
  - done.
  - apply IH. by apply exec_enrolled.
Qed.

(** ** Concrete runs *)

Lemma reachable_enrolled5 : reachable enrolled5.
Proof.
  apply reachable_execs; [apply reachable_init|]; solve_wf.
Qed.

Lemma reachable_threeDone : reachable threeDone.
Proof. apply reachable_execs; [apply reachable_enrolled5|]; solve_wf. Qed.

Lemma reachable_fourDone : reachable fourDone.
Proof. apply reachable_step; [apply reachable_threeDone|]; solve_wf. Qed.

Lemma reachable_shortModule : reachable shortModule.
Proof.
  apply reachable_execs; [apply reachable_init|]; solve_wf.
Qed.

(** ** The claims *)

Lemma percentage_lessons x : percentage x LESSONS_PER_MODULE = x * 25.
Proof.
  unfold percentage, LESSONS_PER_MODULE.
  replace (x * 100) with (x * 25 * 4) by lia. by apply Z.div_mul.
Qed.

Lemma completeLesson_student_inv st a t m l c st' evs :
  reachable st → is_uint8 m → is_uint8 l →
  completeLesson st a t m l c = Ok (st', evs) →
  moduleCount st' = moduleCount st
  ∧ student st' a = completedRecord st a t m l c
  ∧ student_inv (moduleCount st') (student st' a).
Proof.
  intros Hr [Hm _] [Hl _] H. apply reachable_inv in Hr.
  pose proof (inv_completeLesson _ _ _ _ _ _ _ _ Hr Hm Hl H) as Hinv'.
  pose proof H as (He & _ & _ & _ & _ & Hst & _)%completeLesson_inv.
  split; [by rewrite Hst|]. split; [by rewrite Hst, student_set_eq|].
  apply (inv_students st' Hinv' a). apply student_enrolled.
  rewrite Hst, student_set_eq. by rewrite completedRecord_enrolled.
Qed.

(** C1, as it is in the code. After every successful [completeLesson] on a
    reachable state the derived fields of the caller's record are the full
    recomputation from its completion matrix: the stored percentage of the
    affected module (and of every other module) is the percentage of the
    number of [true] entries of that module out of the constant
    [LESSONS_PER_MODULE] = 4, not out of the lesson count the module was
    declared with, and so is the percentage out of the module's own lesson
    count only when that count is 4, as in the built-in catalog;
    [completedLessons] is the number of [true] entries of the whole matrix;
    [totalProgress] is the sum of the stored module percentages divided by
    [moduleCount], truncated. With four modules at 100, 0, 0 and 0 it is
    25. *)
Theorem C1_derived_fields_recomputed st a t m l c st' evs :
  reachable st →
  is_uint8 m → is_uint8 l →
  completeLesson st a t m l c = Ok (st', evs) →
  let p := student st' a in
  let n := moduleCount st' in
  progressOf p m = percentage (completedIn p m) LESSONS_PER_MODULE
  ∧ (totalLessons (moduleAt st' m) = LESSONS_PER_MODULE →
     progressOf p m = percentage (completedIn p m) (totalLessons (moduleAt st' m)))
  ∧ (∀ i, progressOf p i = percentage (completedIn p i) LESSONS_PER_MODULE)
  ∧ completedLessons p = completedTotal p
  ∧ totalProgress p = sumProgress p n / n
  ∧ (n = 4 → progressOf p 0 = 100 → progressOf p 1 = 0 →
     progressOf p 2 = 0 → progressOf p 3 = 0 → totalProgress p = 25).
Proof.
  intros Hr Hm Hl H p n.
  destruct (completeLesson_student_inv _ _ _ _ _ _ _ _ Hr Hm Hl H)
    as (Hn & Hp & Hinv).
  fold p in Hp, Hinv. fold n in Hinv, Hn.
  assert (∀ i, progressOf p i = percentage (completedIn p i) LESSONS_PER_MODULE)
    as Hall.
  { intros i. rewrite percentage_lessons.
    rewrite (completedIn_countInModule n p i (si_grid _ _ Hinv)).
    apply (si_progress _ _ Hinv). }
  assert (totalProgress p = sumProgress p n / n) as Htotal.
  { rewrite Hp, Hn. unfold completedRecord.
    apply (recomputed_fields (moduleCount st) m). }
  split; [apply Hall|]. split; [intros ->; apply Hall|].
  split; [exact Hall|]. split; [|split; [exact Htotal|]].
  - rewrite (completedTotal_countAll n p (si_grid _ _ Hinv)).
    rewrite Hp, Hn. unfold completedRecord.
    apply (recomputed_fields (moduleCount st) m).
  - intros H4 H0 H1 H2 H3. rewrite Htotal, H4.
    unfold sumProgress. change (seqZ 0 4) with [0; 1; 2; 3].
    cbn [fmap list_fmap sumZ foldr]. rewrite H0, H1, H2, H3. reflexivity.
Qed.

Lemma C1_witness :
  let p := student fourDone alice in
  progressOf p 0 = percentage (completedIn p 0) LESSONS_PER_MODULE
  ∧ (totalLessons (moduleAt fourDone 0) = LESSONS_PER_MODULE →
     progressOf p 0 = percentage (completedIn p 0) (totalLessons (moduleAt fourDone 0)))
  ∧ (∀ i, progressOf p i = percentage (completedIn p i) LESSONS_PER_MODULE)
  ∧ completedLessons p = completedTotal p
  ∧ totalProgress p = sumProgress p (moduleCount fourDone) / moduleCount fourDone
  ∧ (moduleCount fourDone = 4 → progressOf p 0 = 100 → progressOf p 1 = 0 →
     progressOf p 2 = 0 → progressOf p 3 = 0 → totalProgress p = 25).
Proof.
  apply (C1_derived_fields_recomputed threeDone alice (day 10) 0 3 true
           fourDone [LessonCompleted alice 0 3; ModuleCompleted alice 0;
                     ProgressUpdated alice]).
  - apply reachable_threeDone.
  - unfold is_uint8, UINT8_MAX. lia.
  - unfold is_uint8, UINT8_MAX. lia.
  - vm_compute. reflexivity.
Defined.

(** C1 as the specification has it fails on a module declared with 3
    lessons: after its first completed lesson the stored percentage is 25,
    where the truncated percentage out of the declared lesson count is 33;
    the two totals are the recomputation all the same. *)
Lemma C1_counterexample :
  reachable shortModule
  ∧ completeLesson shortModule alice (day 10) 4 0 true
    = Ok (shortModule1, [LessonCompleted alice 4 0; ProgressUpdated alice])
  ∧ totalLessons (moduleAt shortModule1 4) = 3
  ∧ completedIn (student shortModule1 alice) 4 = 1
  ∧ percentage (completedIn (student shortModule1 alice) 4)
      (totalLessons (moduleAt shortModule1 4)) = 33
  ∧ progressOf (student shortModule1 alice) 4 = 25
  ∧ completedLessons (student shortModule1 alice)
    = completedTotal (student shortModule1 alice)
  ∧ totalProgress (student shortModule1 alice)
    = sumProgress (student shortModule1 alice) (moduleCount shortModule1)
      / moduleCount shortModule1.
Proof.
  split; [apply reachable_shortModule|].
  repeat apply conj; vm_compute; reflexivity.
Qed.

(** C2, as it is in the code. After a successful [completeLesson] on a
    reachable state the stored percentage of every module is
    [completed * 100 / LESSONS_PER_MODULE], truncated, that is 25 times the
    number of its completed lessons, where the completed lessons are the
    [true] flags among the lesson ids 0 to 3; the divisor is the constant 4
    and not the lesson count the module was declared with, so the figure is
    [completed * 100 / totalLessons] for the modules declared with 4
    lessons, and 25, 50 and 75 after one, two and three completed lessons
    of a module declared with 3. *)
Theorem C2_module_progress_fixed_divisor st a t m l c st' evs :
  reachable st →
  is_uint8 m → is_uint8 l →
  completeLesson st a t m l c = Ok (st', evs) →
  let p := student st' a in
  ∀ i,
    progressOf p i = percentage (completedIn p i) LESSONS_PER_MODULE
    ∧ progressOf p i = completedIn p i * 25
    ∧ completedIn p i
      = b2z (lessonDone p i 0) + b2z (lessonDone p i 1)
        + b2z (lessonDone p i 2) + b2z (lessonDone p i 3)
    ∧ (totalLessons (moduleAt st' i) = LESSONS_PER_MODULE →
       progressOf p i
       = percentage (completedIn p i) (totalLessons (moduleAt st' i)))
    ∧ (totalLessons (moduleAt st' i) = 3 →
       (completedIn p i = 1 → progressOf p i = 25)
       ∧ (completedIn p i = 2 → progressOf p i = 50)
       ∧ (completedIn p i = 3 → progressOf p i = 75)).
Proof.
  intros Hr Hm Hl H p i.
  destruct (completeLesson_student_inv _ _ _ _ _ _ _ _ Hr Hm Hl H)
    as (_ & _ & Hinv).
  fold p in Hinv.
  pose proof (completedIn_countInModule _ p i (si_grid _ _ Hinv)) as Hc.
  assert (progressOf p i = completedIn p i * 25) as H25
    by (rewrite Hc; apply (si_progress _ _ Hinv)).
  assert (progressOf p i = percentage (completedIn p i) LESSONS_PER_MODULE)
    as Hpc by (by rewrite percentage_lessons).
  split; [exact Hpc|]. split; [exact H25|]. split; [|split].
  - rewrite Hc, countInModule_sum. lia.
  - by intros ->.
  - intros _. rewrite H25. repeat apply conj; intros ->; reflexivity.
Qed.

Lemma C2_witness :
  let p := student shortModule3 alice in
  progressOf p 4 = percentage (completedIn p 4) LESSONS_PER_MODULE
  ∧ progressOf p 4 = completedIn p 4 * 25
  ∧ completedIn p 4
    = b2z (lessonDone p 4 0) + b2z (lessonDone p 4 1)
      + b2z (lessonDone p 4 2) + b2z (lessonDone p 4 3)
  ∧ (totalLessons (moduleAt shortModule3 4) = LESSONS_PER_MODULE →
     progressOf p 4
     = percentage (completedIn p 4) (totalLessons (moduleAt shortModule3 4)))
  ∧ (totalLessons (moduleAt shortModule3 4) = 3 →
     (completedIn p 4 = 1 → progressOf p 4 = 25)
     ∧ (completedIn p 4 = 2 → progressOf p 4 = 50)
     ∧ (completedIn p 4 = 3 → progressOf p 4 = 75)).
Proof.
  assert (reachable shortModule2) as Hr.
  { do 2 (apply reachable_step; [|solve_wf]). apply reachable_shortModule. }
  assert (is_uint8 4 ∧ is_uint8 2) as [H4 H2]
    by (unfold is_uint8, UINT8_MAX; lia).
  assert (completeLesson shortModule2 alice (day 10) 4 2 true
          = Ok (shortModule3, [LessonCompleted alice 4 2; ProgressUpdated alice]))
    as Hcall by (vm_compute; reflexivity).
  exact (C2_module_progress_fixed_divisor shortModule2 alice (day 10) 4 2 true
           shortModule3 _ Hr H4 H2 Hcall 4).
Defined.

(** C2 as the specification has it fails on a module declared with 3
    lessons: one, two and three completed lessons give 25, 50 and 75, where
    the division by the declared count gives 33, 66 and 100. *)
Lemma C2_counterexample :
  reachable shortModule
  ∧ totalLessons (moduleAt shortModule 4) = 3
  ∧ completeLesson shortModule alice (day 10) 4 0 true
    = Ok (shortModule1, [LessonCompleted alice 4 0; ProgressUpdated alice])
  ∧ completedIn (student shortModule1 alice) 4 = 1
  ∧ progressOf (student shortModule1 alice) 4 = 25
  ∧ percentage 1 (totalLessons (moduleAt shortModule1 4)) = 33
  ∧ completeLesson shortModule1 alice (day 10) 4 1 true
    = Ok (shortModule2, [LessonCompleted alice 4 1; ProgressUpdated alice])
  ∧ completedIn (student shortModule2 alice) 4 = 2
  ∧ progressOf (student shortModule2 alice) 4 = 50
  ∧ percentage 2 (totalLessons (moduleAt shortModule2 4)) = 66
  ∧ completeLesson shortModule2 alice (day 10) 4 2 true
    = Ok (shortModule3, [LessonCompleted alice 4 2; ProgressUpdated alice])
  ∧ completedIn (student shortModule3 alice) 4 = 3
  ∧ progressOf (student shortModule3 alice) 4 = 75
  ∧ percentage 3 (totalLessons (moduleAt shortModule3 4)) = 100.
Proof.
  split; [apply reachable_shortModule|].
  repeat apply conj; vm_compute; reflexivity.
Qed.

Lemma completeLesson_streak st a t m l c st' evs :
  completeLesson st a t m l c = Ok (st', evs) →
  learningStreak (student st' a)
  = learningStreak (streaked (dayOf t) c (student st a))
  ∧ lastActiveDay (student st' a)
    = lastActiveDay (streaked (dayOf t) c (student st a)).
Proof.
  intros (_ & _ & _ & _ & _ & -> & _)%completeLesson_inv.
  rewrite student_set_eq. apply completedRecord_streak.
Qed.

Lemma streaked_same_day d c p :
  d ≤ lastActiveDay p ∨ c = false → streaked d c p = p.
Proof.
  intros H. unfold streaked.
  destruct (lastActiveDay p <? d) eqn:Hd; [|done].
  apply Z.ltb_lt in Hd. destruct H as [H| ->]; [lia|done].
Qed.

Lemma streaked_next_day d p :
  d = lastActiveDay p + 1 →
  learningStreak (streaked d true p) = learningStreak p + 1
  ∧ lastActiveDay (streaked d true p) = d.
Proof.
  intros Hd. unfold streaked.
  rewrite (proj2 (Z.ltb_lt (lastActiveDay p) d)) by lia.
  rewrite (proj2 (Z.eqb_eq d (lastActiveDay p + 1))) by done. done.
Qed.

Lemma streaked_gap d p :
  lastActiveDay p + 1 < d →
  learningStreak (streaked d true p) = 1 ∧ lastActiveDay (streaked d true p) = d.
Proof.
  intros Hd. unfold streaked.
  rewrite (proj2 (Z.ltb_lt (lastActiveDay p) d)) by lia.
  rewrite (proj2 (Z.eqb_neq d (lastActiveDay p + 1))) by lia. done.
Qed.

(** A completion that passes the four checks and does not overflow the
    streak succeeds, and leaves the catalog and the enrollment as they are. *)
Lemma completeLesson_step st a t m l c :
  inv st →
  isEnrolled (student st a) = true →
  0 ≤ m < moduleCount st → 0 ≤ l < LESSONS_PER_MODULE →
  isActive (moduleAt st m) = true →
  ¬ streakOverflows (dayOf t) c (student st a) →
  ∃ st' evs,
    completeLesson st a t m l c = Ok (st', evs)
    ∧ inv st'
    ∧ isEnrolled (student st' a) = true
    ∧ moduleCount st' = moduleCount st
    ∧ learningModules st' = learningModules st.
Proof.
  intros Hinv He [Hm0 Hm] [Hl0 Hl] Ha Hno.
  pose proof (completeLesson_Ok st a t m l c Hinv He Hm Hl Ha Hno) as H.
  eexists _, _. split; [exact H|].
  split; [by apply (inv_completeLesson _ _ _ _ _ _ _ _ Hinv Hm0 Hl0 H)|].
  split; [|done]. rewrite student_set_eq. by rewrite completedRecord_enrolled.
Qed.

Lemma enrollStudent_record st a t st' evs :
  enrollStudent st a t = Ok (st', evs) →
  isEnrolled (student st' a) = true
  ∧ learningStreak (student st' a) = 0
  ∧ lastActiveDay (student st' a) = dayOf t
  ∧ totalProgress (student st' a) = 0
  ∧ completedLessons (student st' a) = 0
  ∧ moduleCount st' = moduleCount st
  ∧ learningModules st' = learningModules st.
Proof.
  intros (_ & -> & _)%enrollStudent_inv. rewrite student_set_eq.
  match goal with |- context [zeroModuleProgress ?n ?p0] =>
    destruct (zeroModuleProgress_fields n p0)
      as (_ & -> & -> & -> & -> & ->)
  end. done.
Qed.

Lemma moduleAt_catalog st st' m :
  learningModules st' = learningModules st → moduleAt st' m = moduleAt st m.
Proof. unfold moduleAt. by intros ->. Qed.

(** C3. The streak update of a successful [completeLesson], with [today]
    the day index of the block: on the day of [lastActiveDay] nothing
    changes; on the next day the streak grows by one and [lastActiveDay]
    becomes [today]; after a gap the streak is 1 and [lastActiveDay] becomes
    [today]; on an earlier day, or when the flag stored is [false], nothing
    changes. And the run: an account enrolled before day 10 that completes
    lessons on days 10, 11, 15 and 15 has streak 1 (last active day 10),
    then 2, then 1 (last active day 15), then still 1, each call
    succeeding. *)
Theorem C3_streak_update :
  (∀ st a t m l c st' evs,
     completeLesson st a t m l c = Ok (st', evs) →
     let p := student st a in
     let p' := student st' a in
     let today := dayOf t in
     (c = true → today = lastActiveDay p →
      learningStreak p' = learningStreak p ∧ lastActiveDay p' = lastActiveDay p)
     ∧ (c = true → today = lastActiveDay p + 1 →
        learningStreak p' = learningStreak p + 1 ∧ lastActiveDay p' = today)
     ∧ (c = true → today > lastActiveDay p + 1 →
        learningStreak p' = 1 ∧ lastActiveDay p' = today)
     ∧ (today < lastActiveDay p ∨ c = false →
        learningStreak p' = learningStreak p ∧ lastActiveDay p' = lastActiveDay p))
  ∧ (∀ st0 a t0 st1 ev1 t1 t2 t3 t4 k1 k2 k3 k4,
       reachable st0 →
       enrollStudent st0 a t0 = Ok (st1, ev1) →
       dayOf t0 < 10 →
       dayOf t1 = 10 → dayOf t2 = 11 → dayOf t3 = 15 → dayOf t4 = 15 →
       openSlot st0 k1 → openSlot st0 k2 → openSlot st0 k3 → openSlot st0 k4 →
       ∃ st2 st3 st4 st5 ev2 ev3 ev4 ev5,
         completeLesson st1 a t1 k1.1 k1.2 true = Ok (st2, ev2)
         ∧ learningStreak (student st2 a) = 1
         ∧ lastActiveDay (student st2 a) = 10
         ∧ completeLesson st2 a t2 k2.1 k2.2 true = Ok (st3, ev3)
         ∧ learningStreak (student st3 a) = 2
         ∧ lastActiveDay (student st3 a) = 11
         ∧ completeLesson st3 a t3 k3.1 k3.2 true = Ok (st4, ev4)
         ∧ learningStreak (student st4 a) = 1
         ∧ lastActiveDay (student st4 a) = 15
         ∧ completeLesson st4 a t4 k4.1 k4.2 true = Ok (st5, ev5)
         ∧ learningStreak (student st5 a) = 1
         ∧ lastActiveDay (student st5 a) = 15).
Proof.
  split.
  - intros st a t m l c st' evs H p p' today.
    destruct (completeLesson_streak _ _ _ _ _ _ _ _ H) as [Hs Hd].
    fold p p' today in Hs, Hd. rewrite Hs, Hd.
    split; [|split; [|split]].
    + intros _ Ht. rewrite streaked_same_day; [done|left; lia].
    + intros -> Ht. by apply streaked_next_day.
    + intros -> Ht. apply streaked_gap. lia.
    + intros Ht. rewrite streaked_same_day; [done|].
      destruct Ht as [Ht|Ht]; [left; lia|by right].
  - intros st0 a t0 st1 ev1 t1 t2 t3 t4 k1 k2 k3 k4 Hr Hen Ht0 Ht1 Ht2 Ht3 Ht4
      (Hm1 & Hl1 & Ha1) (Hm2 & Hl2 & Ha2) (Hm3 & Hl3 & Ha3) (Hm4 & Hl4 & Ha4).
    apply reachable_inv in Hr.
    pose proof (inv_enrollStudent _ _ _ _ _ Hr Hen) as Hinv1.
    destruct (enrollStudent_record _ _ _ _ _ Hen)
      as (He1 & Hs1 & Hd1 & _ & _ & Hn1 & Hc1).
    assert (UINT32_MAX = 4294967295) as Hmax by reflexivity.
    (* day 10 *)
    destruct (completeLesson_step st1 a t1 k1.1 k1.2 true Hinv1 He1)
      as (st2 & ev2 & H2 & Hinv2 & He2 & Hn2 & Hc2);
      [lia|done|by rewrite (moduleAt_catalog _ _ _ Hc1)
      |intros (_ & _ & Hov); lia|].
    destruct (completeLesson_streak _ _ _ _ _ _ _ _ H2) as [Hs2 Hd2].
    assert (learningStreak (student st2 a) = 1
            ∧ lastActiveDay (student st2 a) = 10) as [Hs2' Hd2'].
    { rewrite Hs2, Hd2, Ht1.
      destruct (decide (lastActiveDay (student st1 a) + 1 = 10)) as [Hn|Hn].
      - destruct (streaked_next_day 10 (student st1 a)) as [-> ->]; lia.
      - apply streaked_gap. lia. }
    (* day 11 *)
    destruct (completeLesson_step st2 a t2 k2.1 k2.2 true Hinv2 He2)
      as (st3 & ev3 & H3 & Hinv3 & He3 & Hn3 & Hc3);
      [lia|done|by rewrite (moduleAt_catalog _ _ _ Hc2),
                            (moduleAt_catalog _ _ _ Hc1)
      |intros (_ & _ & Hov); lia|].
    destruct (completeLesson_streak _ _ _ _ _ _ _ _ H3) as [Hs3 Hd3].
    assert (learningStreak (student st3 a) = 2
            ∧ lastActiveDay (student st3 a) = 11) as [Hs3' Hd3'].
    { rewrite Hs3, Hd3, Ht2.
      destruct (streaked_next_day 11 (student st2 a)) as [-> ->]; lia. }
    (* day 15 *)
    destruct (completeLesson_step st3 a t3 k3.1 k3.2 true Hinv3 He3)
      as (st4 & ev4 & H4 & Hinv4 & He4 & Hn4 & Hc4);
      [lia|done|by rewrite (moduleAt_catalog _ _ _ Hc3),
                            (moduleAt_catalog _ _ _ Hc2),
                            (moduleAt_catalog _ _ _ Hc1)
      |intros (_ & _ & Hov); lia|].
    destruct (completeLesson_streak _ _ _ _ _ _ _ _ H4) as [Hs4 Hd4].
    assert (learningStreak (student st4 a) = 1
            ∧ lastActiveDay (student st4 a) = 15) as [Hs4' Hd4'].
    { rewrite Hs4, Hd4, Ht3. apply streaked_gap. lia. }
    (* day 15 again *)
    destruct (completeLesson_step st4 a t4 k4.1 k4.2 true Hinv4 He4)
      as (st5 & ev5 & H5 & Hinv5 & He5 & Hn5 & Hc5);
      [lia|done|by rewrite (moduleAt_catalog _ _ _ Hc4),
                            (moduleAt_catalog _ _ _ Hc3),
                            (moduleAt_catalog _ _ _ Hc2),
                            (moduleAt_catalog _ _ _ Hc1)
      |intros (_ & _ & Hov); lia|].
    destruct (completeLesson_streak _ _ _ _ _ _ _ _ H5) as [Hs5 Hd5].
    assert (learningStreak (student st5 a) = 1
            ∧ lastActiveDay (student st5 a) = 15) as [Hs5' Hd5'].
    { rewrite Hs5, Hd5, Ht4.
      rewrite streaked_same_day; [done|left; lia]. }
    exists st2, st3, st4, st5, ev2, ev3, ev4, ev5.
    repeat (split; [assumption|]). assumption.
Qed.

Lemma C3_witness :
  (let s := exec enrolled5 (mkTx alice (day 10) (CallComplete 0 0 true)) in
   learningStreak (student s alice) = 1
   ∧ lastActiveDay (student s alice) = dayOf (day 10))
  ∧ ∃ st2 st3 st4 st5 ev2 ev3 ev4 ev5,
      completeLesson enrolled5 alice (day 10) 0 0 true = Ok (st2, ev2)
      ∧ learningStreak (student st2 alice) = 1
      ∧ lastActiveDay (student st2 alice) = 10
      ∧ completeLesson st2 alice (day 11) 0 1 true = Ok (st3, ev3)
      ∧ learningStreak (student st3 alice) = 2
      ∧ lastActiveDay (student st3 alice) = 11
      ∧ completeLesson st3 alice (day 15) 1 0 true = Ok (st4, ev4)
      ∧ learningStreak (student st4 alice) = 1
      ∧ lastActiveDay (student st4 alice) = 15
      ∧ completeLesson st4 alice (day 15 + 3600) 1 1 true = Ok (st5, ev5)
      ∧ learningStreak (student st5 alice) = 1
      ∧ lastActiveDay (student st5 alice) = 15.
Proof.
  destruct C3_streak_update as [Hgeneral Hrun]. split.
  - apply (Hgeneral enrolled5 alice (day 10) 0 0 true _
             [LessonCompleted alice 0 0; ProgressUpdated alice]).
    + vm_compute. reflexivity.
    + reflexivity.
    + vm_compute. reflexivity.
  - apply (Hrun (constructor deployer) alice (day 5) enrolled5
             [StudentEnrolled alice] (day 10) (day 11) (day 15)
             (day 15 + 3600) (0, 0) (0, 1) (1, 0) (1, 1)).
    + apply reachable_init. solve_wf.
    + vm_compute. reflexivity.
    + vm_compute. reflexivity.
    + vm_compute. reflexivity.
    + vm_compute. reflexivity.
    + vm_compute. reflexivity.
    + vm_compute. reflexivity.
    + repeat apply conj; by vm_compute.
    + repeat apply conj; by vm_compute.
    + repeat apply conj; by vm_compute.
    + repeat apply conj; by vm_compute.
Defined.

Lemma reachable_longModule : reachable longModule.
Proof.
  apply reachable_execs; [apply reachable_init|]; solve_wf.
Qed.

(** C4, as it is in the code. On a reachable state [completeLesson] checks,
    in this order, the first failing check deciding the outcome: the caller
    is enrolled ("Student not enrolled"), the module id is below
    [moduleCount] ("Invalid module ID"), the lesson id is below the constant
    [LESSONS_PER_MODULE] = 4 ("Invalid lesson ID"), whatever lesson count
    the module was declared with, and the module is active ("Module not
    active"). A call that succeeds passed the four checks; a call that
    passes them succeeds, unless the streak stands at 2^32 - 1 and is due
    to grow, in which case the checked increment aborts the call. *)
Theorem C4_precondition_order st a t m l c :
  reachable st →
  is_uint8 m → is_uint8 l →
  let r := completeLesson st a t m l c in
  let p := student st a in
  (isEnrolled p = false → r = Err (Revert "Student not enrolled"))
  ∧ (isEnrolled p = true → moduleCount st ≤ m →
     r = Err (Revert "Invalid module ID"))
  ∧ (isEnrolled p = true → m < moduleCount st → LESSONS_PER_MODULE ≤ l →
     r = Err (Revert "Invalid lesson ID"))
  ∧ (isEnrolled p = true → m < moduleCount st → l < LESSONS_PER_MODULE →
     isActive (moduleAt st m) = false → r = Err (Revert "Module not active"))
  ∧ (isEnrolled p = true → m < moduleCount st → l < LESSONS_PER_MODULE →
     isActive (moduleAt st m) = true →
     (streakOverflows (dayOf t) c p → r = Err (Panic 17))
     ∧ (¬ streakOverflows (dayOf t) c p → ∃ st' evs, r = Ok (st', evs)))
  ∧ ((∃ st' evs, r = Ok (st', evs)) →
     isEnrolled p = true ∧ m < moduleCount st ∧ l < LESSONS_PER_MODULE
     ∧ isActive (moduleAt st m) = true).
Proof.
  intros Hr Hm Hl r p. subst r p. apply reachable_inv in Hr.
  split; [|split; [|split; [|split; [|split]]]].
  - intros He. unfold completeLesson. by rewrite He.
  - intros He Hge. unfold completeLesson. rewrite He, require_true.
    by rewrite (proj2 (Z.ltb_ge m (moduleCount st)) Hge).
  - intros He Hlt Hge. unfold completeLesson. rewrite He, require_true.
    rewrite (proj2 (Z.ltb_lt m (moduleCount st)) Hlt), require_true.
    by rewrite (proj2 (Z.ltb_ge l LESSONS_PER_MODULE) Hge).
  - intros He Hlt Hll Ha. unfold completeLesson. rewrite He, require_true.
    rewrite (proj2 (Z.ltb_lt m (moduleCount st)) Hlt), require_true.
    rewrite (proj2 (Z.ltb_lt l LESSONS_PER_MODULE) Hll), require_true.
    by rewrite Ha.
  - intros He Hlt Hll Ha. split.
    + intros Hov. unfold completeLesson. rewrite He, require_true.
      rewrite (proj2 (Z.ltb_lt m (moduleCount st)) Hlt), require_true.
      rewrite (proj2 (Z.ltb_lt l LESSONS_PER_MODULE) Hll), require_true.
      rewrite Ha, require_true.
      rewrite updateStreak_Panic; [done|exact Hov].
    + intros Hno. eexists _, _.
      by apply completeLesson_Ok.
  - intros (st' & evs & H).
    apply completeLesson_inv in H as (He & Hlt & Hll & Ha & _). done.
Qed.

Lemma C4_witness :
  completeLesson longModule alice (day 10) 4 5 true
  = Err (Revert "Invalid lesson ID").
Proof.
  assert (is_uint8 4 ∧ is_uint8 5) as [H4 H5]
    by (unfold is_uint8, UINT8_MAX; lia).
  pose proof (C4_precondition_order longModule alice (day 10) 4 5 true
                reachable_longModule H4 H5) as (_ & _ & Hlesson & _).
  apply Hlesson.
  - vm_compute. reflexivity.
  - vm_compute. reflexivity.
  - vm_compute. intros H. discriminate H.
Defined.

(** C4 as the specification has it fails where the declared lesson count is
    not 4: lesson 3 of a module declared with 3 lessons is recorded, and
    lesson 5 of a module declared with 10 lessons is refused. *)
Lemma C4_counterexample :
  (reachable shortModule
   ∧ isEnrolled (student shortModule alice) = true
   ∧ 4 < moduleCount shortModule
   ∧ totalLessons (moduleAt shortModule 4) = 3
   ∧ isActive (moduleAt shortModule 4) = true
   ∧ completeLesson shortModule alice (day 10) 4 3 true
     = Ok (shortModuleLast, [LessonCompleted alice 4 3; ProgressUpdated alice]))
  ∧ (reachable longModule
     ∧ isEnrolled (student longModule alice) = true
     ∧ 4 < moduleCount longModule
     ∧ totalLessons (moduleAt longModule 4) = 10
     ∧ isActive (moduleAt longModule 4) = true
     ∧ completeLesson longModule alice (day 10) 4 5 true
       = Err (Revert "Invalid lesson ID")).
Proof.
  split.
  - split; [apply reachable_shortModule|].
    repeat apply conj; vm_compute; reflexivity.
  - split; [apply reachable_longModule|].
    repeat apply conj; vm_compute; reflexivity.
Qed.

(** C5, as it is in the code. A successful [completeLesson] logs
    [LessonCompleted] first, then [ModuleCompleted] exactly when the
    recomputed percentage of the module is 100, whether or not it was 100
    before the call, and [ProgressUpdated] last. *)
Theorem C5_events st a t m l c st' evs :
  completeLesson st a t m l c = Ok (st', evs) →
  evs = LessonCompleted a m l
        :: (if progressOf (student st' a) m =? 100
            then [ModuleCompleted a m] else [])
        ++ [ProgressUpdated a].
Proof.
  intros (_ & _ & _ & _ & _ & -> & ->)%completeLesson_inv.
  rewrite student_set_eq, completedRecord_progress.
  destruct (decide (m = m)) as [_|Hne]; [|done].
  unfold progressEvents.
  rewrite (countInModule_ext (completedRecord st a t m l c)
             (lessonMarked st a m l c) m 0); [done|].
  unfold lessonMarked. by rewrite completedRecord_matrix.
Qed.

Lemma C5_witness :
  [LessonCompleted alice 0 3; ModuleCompleted alice 0; ProgressUpdated alice]
  = LessonCompleted alice 0 3
    :: (if progressOf (student fourDone alice) 0 =? 100
        then [ModuleCompleted alice 0] else [])
    ++ [ProgressUpdated alice].
Proof.
  apply (C5_events threeDone alice (day 10) 0 3 true fourDone).
  vm_compute. reflexivity.
Defined.

(** C5 as the specification has it fails when a lesson of a module that is
    already at 100 is recorded again: the percentage stays at 100 and
    [ModuleCompleted] is logged once more. *)
Lemma C5_counterexample :
  reachable fourDone
  ∧ progressOf (student fourDone alice) 0 = 100
  ∧ completeLesson fourDone alice (day 10) 0 0 true
    = Ok (fourDoneAgain,
          [LessonCompleted alice 0 0; ModuleCompleted alice 0;
           ProgressUpdated alice])
  ∧ progressOf (student fourDoneAgain alice) 0 = 100.
Proof.
  split; [apply reachable_fourDone|].
  repeat apply conj; vm_compute; reflexivity.
Qed.

(** C6. Once [enrollStudent] has succeeded for an account, every later
    [enrollStudent] of that account, after any calls in between, fails
    with "Already enrolled" and leaves the whole storage, hence the
    account's record, as it was; and any failed call leaves the storage as
    it was. *)
Theorem C6_second_enroll_fails st a t st1 evs :
  enrollStudent st a t = Ok (st1, evs) →
  (∀ txs t',
     let st2 := execs st1 txs in
     enrollStudent st2 a t' = Err (Revert "Already enrolled")
     ∧ exec st2 (mkTx a t' CallEnroll) = st2
     ∧ student (exec st2 (mkTx a t' CallEnroll)) a = student st2 a)
  ∧ (∀ s tx f, run s tx = Err f → exec s tx = s).
Proof.
  intros H. split.
  - intros txs t' st2.
    assert (enrollStudent st2 a t' = Err (Revert "Already enrolled")) as Hfail.
    { unfold enrollStudent. subst st2.
      rewrite execs_enrolled; [done|].
      by apply (enrollStudent_record _ _ _ _ _ H). }
    assert (exec st2 (mkTx a t' CallEnroll) = st2) as Hsame.
    { unfold exec, run. simpl. by rewrite Hfail. }
    by rewrite Hsame.
  - intros s tx f Hf. unfold exec. by rewrite Hf.
Qed.

Lemma C6_witness :
  let st2 := execs enrolled5 sameDay in
  enrollStudent st2 alice (day 6) = Err (Revert "Already enrolled")
  ∧ exec st2 (mkTx alice (day 6) CallEnroll) = st2
  ∧ student (exec st2 (mkTx alice (day 6) CallEnroll)) alice = student st2 alice.
Proof.
  assert (enrollStudent (constructor deployer) alice (day 5)
          = Ok (enrolled5, [StudentEnrolled alice])) as Hfirst
    by (vm_compute; reflexivity).
  destruct (C6_second_enroll_fails _ _ _ _ _ Hfirst) as [Hsecond _].
  exact (Hsecond sameDay (day 6)).
Defined.

(** C7, as it is in the code. [addModule] is refused to anyone but the
    owner, and fails with "Maximum modules reached" when [moduleCount] has
    reached the ceiling of 255; it does not look at the lesson count, so a
    count of zero is accepted like any other. A failure leaves the storage,
    hence the catalog and its length, as it was. On success the module is
    stored, active, under the id [moduleCount], which then grows by one,
    and every other entry of the catalog and every record is unchanged. *)
Theorem C7_addModule st sender t nm k :
  let r := addModule st sender nm k in
  (sender ≠ owner st → r = Err (Revert "Only owner can call this function"))
  ∧ (sender = owner st → 255 ≤ moduleCount st →
     r = Err (Revert "Maximum modules reached"))
  ∧ (sender = owner st → moduleCount st < 255 →
     ∃ st',
       r = Ok (st', [])
       ∧ moduleCount st' = moduleCount st + 1
       ∧ learningModules st' !! moduleCount st = Some (mkModule nm k true)
       ∧ (∀ i, i ≠ moduleCount st →
          learningModules st' !! i = learningModules st !! i)
       ∧ studentProgress st' = studentProgress st
       ∧ owner st' = owner st)
  ∧ (∀ f, r = Err f →
     exec st (mkTx sender t (CallAddModule nm k)) = st).
Proof.
  intros r. subst r. split; [|split; [|split]].
  - intros Hne. unfold addModule.
    by rewrite (proj2 (Z.eqb_neq sender (owner st)) Hne).
  - intros -> Hge. unfold addModule. rewrite Z.eqb_refl, require_true.
    by rewrite (proj2 (Z.ltb_ge (moduleCount st) 255) Hge).
  - intros -> Hlt. unfold addModule. rewrite Z.eqb_refl, require_true.
    rewrite (proj2 (Z.ltb_lt (moduleCount st) 255) Hlt), require_true.
    eexists. split; [reflexivity|]. simpl.
    split; [done|]. split; [by rewrite lookup_insert_eq|].
    split; [|done]. intros i Hi. by rewrite lookup_insert_ne.
  - intros f Hf. unfold exec, run. simpl. by rewrite Hf.
Qed.

Lemma C7_witness :
  ∃ st',
    addModule (constructor deployer) deployer "Empty" 0 = Ok (st', [])
    ∧ moduleCount st' = moduleCount (constructor deployer) + 1
    ∧ learningModules st' !! moduleCount (constructor deployer)
      = Some (mkModule "Empty" 0 true)
    ∧ (∀ i, i ≠ moduleCount (constructor deployer) →
       learningModules st' !! i = learningModules (constructor deployer) !! i)
    ∧ studentProgress st' = studentProgress (constructor deployer)
    ∧ owner st' = owner (constructor deployer).
Proof.
  pose proof (C7_addModule (constructor deployer) deployer (day 1) "Empty" 0)
    as (_ & _ & Hok & _).
  apply Hok.
  - reflexivity.
  - vm_compute. reflexivity.
Defined.

(** C7 as the specification has it fails on a lesson count of zero: the
    call succeeds and the catalog grows to five modules. *)
Lemma C7_counterexample :
  addModule (constructor deployer) deployer "Empty" 0 = Ok (emptyModule, [])
  ∧ moduleCount (constructor deployer) = 4
  ∧ moduleCount emptyModule = 5
  ∧ moduleAt emptyModule 4 = mkModule "Empty" 0 true.
Proof. repeat apply conj; vm_compute; reflexivity. Qed.

Lemma progressOf_reachable st a m :
  inv st → ∃ k, 0 ≤ k ≤ 4 ∧ progressOf (student st a) m = k * 25.
Proof.
  intros Hinv. destruct (isEnrolled (student st a)) eqn:He.
  - pose proof (student_inv_of st a Hinv He) as Hp.
    exists (countInModule (student st a) m 0).
    split; [apply countInModule_range|apply (si_progress _ _ Hp)].
  - exists 0. split; [lia|].
    unfold student. by rewrite (student_not_enrolled st a Hinv He).
Qed.

Lemma progress_100_all_done p m :
  countInModule p m 0 * 25 = 100 ↔
  lessonDone p m 0 = true ∧ lessonDone p m 1 = true
  ∧ lessonDone p m 2 = true ∧ lessonDone p m 3 = true.
Proof.
  rewrite countInModule_sum.
  destruct (lessonDone p m 0), (lessonDone p m 1),
    (lessonDone p m 2), (lessonDone p m 3); simpl; split;
    try lia; try tauto; intros (? & ? & ? & ?); discriminate.
Qed.

(** C8. In every reachable state the stored percentage of every module of
    every account is one of 0, 25, 50, 75 and 100, whatever lesson count
    the module was declared with: [completeLesson] admits the lesson ids
    below the constant [LESSONS_PER_MODULE] = 4 and no other, and after a
    successful call the percentage of the module is 100 exactly when its
    lessons 0, 1, 2 and 3 are all completed. *)
Theorem C8_progress_multiple_of_25 st :
  reachable st →
  (∀ a m, progressOf (student st a) m ∈ [0; 25; 50; 75; 100])
  ∧ (∀ a t m l c,
       is_uint8 m → is_uint8 l →
       isEnrolled (student st a) = true → m < moduleCount st →
       isActive (moduleAt st m) = true →
       ¬ streakOverflows (dayOf t) c (student st a) →
       (l < LESSONS_PER_MODULE →
        ∃ st' evs, completeLesson st a t m l c = Ok (st', evs))
       ∧ (LESSONS_PER_MODULE ≤ l →
          completeLesson st a t m l c = Err (Revert "Invalid lesson ID")))
  ∧ (∀ a t m l c st' evs,
       completeLesson st a t m l c = Ok (st', evs) →
       let p := student st' a in
       progressOf p m = 100 ↔
       lessonDone p m 0 = true ∧ lessonDone p m 1 = true
       ∧ lessonDone p m 2 = true ∧ lessonDone p m 3 = true).
Proof.
  intros Hr. apply reachable_inv in Hr. split; [|split].
  - intros a m. destruct (progressOf_reachable st a m Hr) as (k & Hk & ->).
    assert (k = 0 ∨ k = 1 ∨ k = 2 ∨ k = 3 ∨ k = 4) as Hcases by lia.
    clear Hk.
    destruct Hcases as [-> | [-> | [-> | [-> | ->]]]]; simpl; set_solver.
  - intros a t m l c Hm Hl He Hlt Ha Hno. split.
    + intros Hll. eexists _, _. by apply completeLesson_Ok.
    + intros Hge. unfold completeLesson. rewrite He, require_true.
      rewrite (proj2 (Z.ltb_lt m (moduleCount st)) Hlt), require_true.
      by rewrite (proj2 (Z.ltb_ge l LESSONS_PER_MODULE) Hge).
  - intros a t m l c st' evs H p. subst p.
    apply completeLesson_inv in H as (_ & _ & _ & _ & _ & -> & _).
    rewrite student_set_eq, completedRecord_progress.
    destruct (decide (m = m)) as [_|Hne]; [|done].
    apply progress_100_all_done.
Qed.

(** Alice records the four admitted lessons of the module declared with 3
    lessons; a fifth lesson id is refused. *)
Lemma C8_witness :
  (∀ a m, progressOf (student shortModule3 a) m ∈ [0; 25; 50; 75; 100])
  ∧ (∃ st' evs,
       completeLesson shortModule3 alice (day 10) 4 3 true = Ok (st', evs))
  ∧ completeLesson shortModule3 alice (day 10) 4 4 true
    = Err (Revert "Invalid lesson ID")
  ∧ progressOf (student shortModule4 alice) 4 = 100.
Proof.
  assert (reachable shortModule3) as Hr.
  { do 3 (apply reachable_step; [|solve_wf]). apply reachable_shortModule. }
  pose proof (C8_progress_multiple_of_25 shortModule3 Hr)
    as (Hmult & Hlessons & Hfull).
  assert (is_uint8 4 ∧ is_uint8 3) as [H4 H3]
    by (unfold is_uint8, UINT8_MAX; lia).
  assert (¬ streakOverflows (dayOf (day 10)) true (student shortModule3 alice))
    as Hno by (intros (_ & Hd & _); vm_compute in Hd; discriminate Hd).
  split; [exact Hmult|]. split; [|split].
  - apply (Hlessons alice (day 10) 4 3 true H4 H3); try done;
      vm_compute; reflexivity.
  - apply (Hlessons alice (day 10) 4 4 true H4 H4); try done;
      vm_compute; reflexivity.
  - apply (Hfull alice (day 10) 4 3 true shortModule4
             [LessonCompleted alice 4 3; ModuleCompleted alice 4;
              ProgressUpdated alice]).
    + vm_compute. reflexivity.
    + repeat apply conj; vm_compute; reflexivity.
Defined.

Lemma run_other st tx st' evs a :
  run st tx = Ok (st', evs) → tx_sender tx ≠ a → student st' a = student st a.
Proof.
  unfold run. intros Hrun Hne. destruct (tx_call tx) as [|m l c|nm k|m].
  - apply enrollStudent_inv in Hrun as (_ & -> & _). by apply student_set_ne.
  - apply completeLesson_inv in Hrun as (_ & _ & _ & _ & _ & -> & _).
    by apply student_set_ne.
  - by apply addModule_inv in Hrun as (_ & _ & -> & _).
  - by apply toggleModule_inv in Hrun as (_ & _ & -> & _).
Qed.

Lemma completeLesson_enrolled st a t m l c st' evs :
  completeLesson st a t m l c = Ok (st', evs) →
  isEnrolled (student st' a) = true.
Proof.
  intros (He & _ & _ & _ & _ & -> & _)%completeLesson_inv.
  rewrite student_set_eq. by rewrite completedRecord_enrolled.
Qed.

Lemma completeLesson_freshStreak d st a t m l c st' evs :
  dayOf t ≤ d →
  completeLesson st a t m l c = Ok (st', evs) →
  freshStreak d (student st a) → freshStreak d (student st' a).
Proof.
  intros Hday H (_ & Hs & Hd).
  split; [by apply (completeLesson_enrolled _ _ _ _ _ _ _ _ H)|].
  destruct (completeLesson_streak _ _ _ _ _ _ _ _ H) as [-> ->].
  rewrite streaked_same_day; [done|left; lia].
Qed.

Lemma exec_freshStreak d st tx a :
  dayOf (tx_timestamp tx) ≤ d →
  freshStreak d (student st a) → freshStreak d (student (exec st tx) a).
Proof.
  intros Hday Hfresh. unfold exec.
  destruct (run st tx) as [[st' evs]|f] eqn:Hrun; [|done].
  destruct (decide (tx_sender tx = a)) as [Heq|Hne].
  - unfold run in Hrun. rewrite Heq in Hrun.
    destruct (tx_call tx) as [|m l c|nm k|m].
    + apply enrollStudent_inv in Hrun as (Hno & _).
      destruct Hfresh as (He & _). congruence.
    + by apply (completeLesson_freshStreak d st a (tx_timestamp tx) m l c
                  st' evs).
    + by apply addModule_inv in Hrun as (_ & _ & -> & _).
    + by apply toggleModule_inv in Hrun as (_ & _ & -> & _).
  - by rewrite (run_other _ _ _ _ _ Hrun Hne).
Qed.

Lemma execs_freshStreak d st txs a :
  Forall (λ tx, dayOf (tx_timestamp tx) ≤ d) txs →
  freshStreak d (student st a) → freshStreak d (student (execs st txs) a).
Proof.
  intros Hdays. revert st. unfold execs.
  induction Hdays as [|tx txs Htx _ IH]; intros st Hfresh; simpl; [done|].
  apply IH. by apply exec_freshStreak.
Qed.

(** C9. After [enrollStudent] at a block of day [d], a completion recorded
    by the account on that same day leaves its streak at 0 and its last
    active day at [d], and so does any sequence of calls, by anyone, none of
    which is on a later day; the first completion on a later day sets the
    streak to 1. *)
Theorem C9_same_day_streak_zero st a t0 st1 ev :
  enrollStudent st a t0 = Ok (st1, ev) →
  (learningStreak (student st1 a) = 0
   ∧ lastActiveDay (student st1 a) = dayOf t0)
  ∧ (∀ t m l c st2 evs,
       dayOf t = dayOf t0 →
       completeLesson st1 a t m l c = Ok (st2, evs) →
       learningStreak (student st2 a) = 0
       ∧ lastActiveDay (student st2 a) = dayOf t0)
  ∧ (∀ txs,
       Forall (λ tx, dayOf (tx_timestamp tx) ≤ dayOf t0) txs →
       learningStreak (student (execs st1 txs) a) = 0
       ∧ lastActiveDay (student (execs st1 txs) a) = dayOf t0)
  ∧ (∀ t m l st2 evs,
       dayOf t0 < dayOf t →
       completeLesson st1 a t m l true = Ok (st2, evs) →
       learningStreak (student st2 a) = 1
       ∧ lastActiveDay (student st2 a) = dayOf t).
Proof.
  intros H.
  destruct (enrollStudent_record _ _ _ _ _ H) as (He & Hs & Hd & _).
  assert (freshStreak (dayOf t0) (student st1 a)) as Hfresh by done.
  split; [done|]. split; [|split].
  - intros t m l c st2 evs Ht H2.
    apply (completeLesson_freshStreak (dayOf t0)) in H2; [|lia|done].
    by destruct H2 as (_ & ? & ?).
  - intros txs Hdays.
    pose proof (execs_freshStreak _ st1 txs a Hdays Hfresh) as (_ & ? & ?).
    done.
  - intros t m l st2 evs Ht H2.
    destruct (completeLesson_streak _ _ _ _ _ _ _ _ H2) as [-> ->].
    destruct (decide (dayOf t = lastActiveDay (student st1 a) + 1)) as [Hn|Hn].
    + destruct (streaked_next_day (dayOf t) (student st1 a) Hn) as [-> ->].
      split; [lia|done].
    + apply streaked_gap. lia.
Qed.

Lemma C9_witness :
  (learningStreak (student enrolled5 alice) = 0
   ∧ lastActiveDay (student enrolled5 alice) = dayOf (day 5))
  ∧ (learningStreak (student (execs enrolled5 sameDay) alice) = 0
     ∧ lastActiveDay (student (execs enrolled5 sameDay) alice) = dayOf (day 5))
  ∧ completedLessons (student (execs enrolled5 sameDay) alice) = 3.
Proof.
  pose proof (C9_same_day_streak_zero (constructor deployer) alice (day 5)
                enrolled5 [StudentEnrolled alice]) as H.
  destruct H as (Hinit & _ & Hrun & _).
  - vm_compute. reflexivity.
  - split; [exact Hinit|]. split.
    + apply Hrun. unfold sameDay.
      repeat (apply List.Forall_cons; [by vm_compute|]). apply List.Forall_nil.
    + vm_compute. reflexivity.
Defined.

(** C10. For the owner and a module id below [moduleCount] of a reachable
    state, [toggleModule] succeeds, logs nothing and changes nothing but the
    [isActive] flag of that module, which it negates: the name and the
    lesson count of the module, every other module, the module count, the
    owner and every record are as before; a second [toggleModule] on the
    same id gives back the storage the first one started from. *)
Theorem C10_toggle_involution st m :
  reachable st →
  is_uint8 m → m < moduleCount st →
  ∃ st1 st2,
    toggleModule st (owner st) m = Ok (st1, [])
    ∧ toggleModule st1 (owner st1) m = Ok (st2, [])
    ∧ st2 = st
    ∧ isActive (moduleAt st1 m) = negb (isActive (moduleAt st m))
    ∧ name (moduleAt st1 m) = name (moduleAt st m)
    ∧ totalLessons (moduleAt st1 m) = totalLessons (moduleAt st m)
    ∧ (∀ i, i ≠ m → learningModules st1 !! i = learningModules st !! i)
    ∧ studentProgress st1 = studentProgress st
    ∧ moduleCount st1 = moduleCount st
    ∧ owner st1 = owner st.
Proof.
  intros Hr [Hm0 _] Hm. apply reachable_inv in Hr.
  destruct (inv_modules st Hr m) as [x Hx]; [lia|].
  assert (moduleAt st m = x) as Hat by (unfold moduleAt; by rewrite Hx).
  exists (set_module m (set_isActive (negb (isActive x)) x) st), st.
  split; [|split].
  - unfold toggleModule. rewrite Z.eqb_refl, require_true.
    rewrite (proj2 (Z.ltb_lt m (moduleCount st)) Hm), require_true.
    by rewrite Hat.
  - unfold toggleModule. simpl. rewrite Z.eqb_refl, require_true.
    rewrite (proj2 (Z.ltb_lt m (moduleCount st)) Hm), require_true.
    unfold moduleAt, set_module. simpl. rewrite lookup_insert_eq. simpl.
    rewrite negb_involutive, insert_insert_eq.
    rewrite insert_id; [by destruct st|by destruct x].
  - split; [done|]. rewrite Hat. unfold moduleAt. simpl.
    rewrite lookup_insert_eq. simpl. repeat (split; [done|]).
    split; [|done]. intros i Hi. by rewrite lookup_insert_ne.
Qed.

Lemma C10_witness :
  ∃ st1 st2,
    toggleModule enrolled5 (owner enrolled5) 2 = Ok (st1, [])
    ∧ toggleModule st1 (owner st1) 2 = Ok (st2, [])
    ∧ st2 = enrolled5
    ∧ isActive (moduleAt st1 2) = negb (isActive (moduleAt enrolled5 2))
    ∧ name (moduleAt st1 2) = name (moduleAt enrolled5 2)
    ∧ totalLessons (moduleAt st1 2) = totalLessons (moduleAt enrolled5 2)
    ∧ (∀ i, i ≠ 2 → learningModules st1 !! i = learningModules enrolled5 !! i)
    ∧ studentProgress st1 = studentProgress enrolled5
    ∧ moduleCount st1 = moduleCount enrolled5
    ∧ owner st1 = owner enrolled5.
Proof.
  apply (C10_toggle_involution enrolled5 2).
  - apply reachable_enrolled5.
  - unfold is_uint8, UINT8_MAX. lia.
  - vm_compute. reflexivity.
Defined.

(** ** Further properties of the contract *)

Lemma sameViews_record st st' a :
  student st' a = student st a → moduleCount st' = moduleCount st →
  sameViews st st' a.
Proof.
  intros Hp Hn.
  unfold sameViews, isStudentEnrolled, getMyTotalProgress,
    getMyCompletedLessons, getMyLearningStreak, getMyModuleProgress,
    isLessonCompleted.
  rewrite Hp, Hn. done.
Qed.

Lemma completedRecord_lessonDone st a t m l c i j :
  lessonDone (completedRecord st a t m l c) i j =
  if decide ((m, l) = (i, j)) then c else lessonDone (student st a) i j.
Proof.
  unfold lessonDone. rewrite completedRecord_matrix.
  destruct (decide ((m, l) = (i, j))) as [Heq|Hne].
  - by rewrite Heq, lookup_insert_eq.
  - by rewrite lookup_insert_ne.
Qed.

(** X1. What [completeLesson] stores is what [isLessonCompleted] reads
    back: after a successful [completeLesson] with flag [c] the caller
    reads [c] for that lesson, and for every other lesson of every module
    the answer, value or failure, is the one given before the call. *)
Theorem X1_isLessonCompleted_reads_back st a t m l c st' evs :
  completeLesson st a t m l c = Ok (st', evs) →
  isLessonCompleted st' a m l = Ok c
  ∧ (∀ i j, (i, j) ≠ (m, l) →
     isLessonCompleted st' a i j = isLessonCompleted st a i j).
Proof.
  intros H.
  pose proof (completeLesson_enrolled _ _ _ _ _ _ _ _ H) as He'.
  apply completeLesson_inv in H as (He & Hm & Hl & _ & _ & -> & _).
  unfold isLessonCompleted. rewrite He', He, !require_true.
  rewrite student_set_eq. simpl. split.
  - rewrite (proj2 (Z.ltb_lt m (moduleCount st)) Hm), require_true.
    rewrite (proj2 (Z.ltb_lt l LESSONS_PER_MODULE) Hl), require_true.
    rewrite completedRecord_lessonDone.
    by destruct (decide ((m, l) = (m, l))).
  - intros i j Hij. rewrite completedRecord_lessonDone.
    destruct (decide ((m, l) = (i, j))) as [Heq|_]; [congruence|done].
Qed.

Lemma X1_witness :
  isLessonCompleted fourDone alice 0 3 = Ok true
  ∧ (∀ i j, (i, j) ≠ (0, 3) →
     isLessonCompleted fourDone alice i j = isLessonCompleted threeDone alice i j).
Proof.
  apply (X1_isLessonCompleted_reads_back threeDone alice (day 10) 0 3 true
           fourDone [LessonCompleted alice 0 3; ModuleCompleted alice 0;
                     ProgressUpdated alice]).
  vm_compute. reflexivity.
Defined.

(** X2. A successful [completeLesson] writes to the caller's record and to
    nothing else: the catalog, the module count, the owner and the record
    of every other account are as before, and in the caller's record the
    enrollment flag, the flags of the other lessons and the percentages of
    the other modules are as before. *)
Theorem X2_completeLesson_frame st a t m l c st' evs :
  completeLesson st a t m l c = Ok (st', evs) →
  learningModules st' = learningModules st
  ∧ moduleCount st' = moduleCount st
  ∧ owner st' = owner st
  ∧ (∀ b, b ≠ a → studentProgress st' !! b = studentProgress st !! b)
  ∧ isEnrolled (student st' a) = isEnrolled (student st a)
  ∧ (∀ k, k ≠ (m, l) →
     lessonCompleted (student st' a) !! k = lessonCompleted (student st a) !! k)
  ∧ (∀ i, i ≠ m → progressOf (student st' a) i = progressOf (student st a) i).
Proof.
  intros (_ & _ & _ & _ & _ & -> & _)%completeLesson_inv.
  rewrite student_set_eq.
  split; [done|]. split; [done|]. split; [done|]. split; [|split; [|split]].
  - intros b Hb. unfold set_student. simpl. by rewrite lookup_insert_ne.
  - apply completedRecord_enrolled.
  - intros k Hk. rewrite completedRecord_matrix. by rewrite lookup_insert_ne.
  - intros i Hi. rewrite completedRecord_progress.
    destruct (decide (m = i)) as [Heq|_]; [congruence|done].
Qed.

Lemma X2_witness :
  learningModules fourDone = learningModules threeDone
  ∧ moduleCount fourDone = moduleCount threeDone
  ∧ owner fourDone = owner threeDone
  ∧ (∀ b, b ≠ alice →
     studentProgress fourDone !! b = studentProgress threeDone !! b)
  ∧ isEnrolled (student fourDone alice) = isEnrolled (student threeDone alice)
  ∧ (∀ k, k ≠ (0, 3) →
     lessonCompleted (student fourDone alice) !! k
     = lessonCompleted (student threeDone alice) !! k)
  ∧ (∀ i, i ≠ 0 →
     progressOf (student fourDone alice) i = progressOf (student threeDone alice) i).
Proof.
  apply (X2_completeLesson_frame threeDone alice (day 10) 0 3 true
           fourDone [LessonCompleted alice 0 3; ModuleCompleted alice 0;
                     ProgressUpdated alice]).
  vm_compute. reflexivity.
Defined.

Lemma exec_foreign st tx a :
  foreignTo a tx → studentProgress (exec st tx) !! a = studentProgress st !! a.
Proof.
  unfold foreignTo, exec, run. intros Hf.
  destruct (tx_call tx) as [|m l c|nm k|m].
  - destruct (enrollStudent st (tx_sender tx) (tx_timestamp tx))
      as [[st' evs]|f] eqn:H; [|done].
    apply enrollStudent_inv in H as (_ & -> & _). simpl.
    by rewrite lookup_insert_ne.
  - destruct (completeLesson st (tx_sender tx) (tx_timestamp tx) m l c)
      as [[st' evs]|f] eqn:H; [|done].
    apply completeLesson_inv in H as (_ & _ & _ & _ & _ & -> & _). simpl.
    by rewrite lookup_insert_ne.
  - destruct (addModule st (tx_sender tx) nm k) as [[st' evs]|f] eqn:H; [|done].
    by apply addModule_inv in H as (_ & _ & -> & _).
  - destruct (toggleModule st (tx_sender tx) m) as [[st' evs]|f] eqn:H; [|done].
    by apply toggleModule_inv in H as (_ & _ & -> & _).
Qed.

(** X3. The record of an account is written by that account alone: a
    sequence of calls none of which is an [enrollStudent] or a
    [completeLesson] sent by the account, whoever sends them, the owner
    included, leaves its stored record as it is. *)
Theorem X3_account_isolation st txs a :
  Forall (foreignTo a) txs →
  studentProgress (execs st txs) !! a = studentProgress st !! a
  ∧ student (execs st txs) a = student st a.
Proof.
  intros Hf.
  assert (studentProgress (execs st txs) !! a = studentProgress st !! a) as H.
  { revert st. unfold execs.
    induction Hf as [|tx txs Htx _ IH]; intros st; simpl; [done|].
    rewrite IH. by apply exec_foreign. }
  split; [exact H|]. unfold student. by rewrite H.
Qed.

Lemma X3_witness :
  studentProgress (execs fourDone othersAct) !! alice
  = studentProgress fourDone !! alice
  ∧ student (execs fourDone othersAct) alice = student fourDone alice.
Proof.
  apply (X3_account_isolation fourDone othersAct alice).
  unfold othersAct.
  repeat (apply List.Forall_cons; [by vm_compute|]). apply List.Forall_nil.
Defined.

Lemma student_blank st a :
  inv st → isEnrolled (student st a) = false → student st a = zeroProgress.
Proof.
  intros Hinv He. unfold student.
  by rewrite (student_not_enrolled st a Hinv He).
Qed.

(** X4. In a reachable state an account that is not enrolled has no record
    at all: every read-only function gated by enrollment and every
    [completeLesson] fails with "Student not enrolled". Its [enrollStudent]
    succeeds, logs [StudentEnrolled] alone, and gives a record that reads
    zero everywhere: total progress, completed lessons and streak 0, every
    module at 0 and every lesson not completed, with the day of the block
    as last active day. *)
Theorem X4_enrollment_starts_blank st a t :
  reachable st →
  isStudentEnrolled st a = false →
  (studentProgress st !! a = None
   ∧ getMyTotalProgress st a = Err (Revert "Student not enrolled")
   ∧ getMyCompletedLessons st a = Err (Revert "Student not enrolled")
   ∧ getMyLearningStreak st a = Err (Revert "Student not enrolled")
   ∧ (∀ m, getMyModuleProgress st a m = Err (Revert "Student not enrolled"))
   ∧ (∀ m l, isLessonCompleted st a m l = Err (Revert "Student not enrolled"))
   ∧ (∀ t' m l c,
        completeLesson st a t' m l c = Err (Revert "Student not enrolled")))
  ∧ ∃ st',
      enrollStudent st a t = Ok (st', [StudentEnrolled a])
      ∧ isStudentEnrolled st' a = true
      ∧ getMyTotalProgress st' a = Ok 0
      ∧ getMyCompletedLessons st' a = Ok 0
      ∧ getMyLearningStreak st' a = Ok 0
      ∧ (∀ m, m < moduleCount st → getMyModuleProgress st' a m = Ok 0)
      ∧ (∀ m l, m < moduleCount st → l < LESSONS_PER_MODULE →
         isLessonCompleted st' a m l = Ok false)
      ∧ lastActiveDay (student st' a) = dayOf t.
Proof.
  intros Hr He. apply reachable_inv in Hr. unfold isStudentEnrolled in He.
  split.
  - split; [by apply student_not_enrolled|].
    unfold getMyTotalProgress, getMyCompletedLessons, getMyLearningStreak,
      getMyModuleProgress, isLessonCompleted, completeLesson.
    rewrite He. done.
  - destruct (enrollStudent st a t) as [[st' evs]|f] eqn:H.
    + pose proof H as (_ & Hst & ->)%enrollStudent_inv.
      destruct (enrollStudent_record _ _ _ _ _ H)
        as (He' & Hs & Hd & Ht & Hc & Hn & _).
      exists st'. split; [done|].
      unfold isStudentEnrolled, getMyTotalProgress, getMyCompletedLessons,
        getMyLearningStreak, getMyModuleProgress, isLessonCompleted.
      rewrite He', Hs, Ht, Hc, Hn, !require_true.
      do 4 (split; [done|]). split; [|split; [|done]].
      * intros m Hm.
        rewrite (proj2 (Z.ltb_lt m (moduleCount st)) Hm), !require_true.
        f_equal. rewrite Hst, student_set_eq.
        apply zeroModuleProgress_progress. intros i.
        by rewrite (student_blank st a Hr He).
      * intros m l Hm Hl.
        rewrite (proj2 (Z.ltb_lt m (moduleCount st)) Hm).
        rewrite (proj2 (Z.ltb_lt l LESSONS_PER_MODULE) Hl), !require_true.
        f_equal. rewrite Hst, student_set_eq. unfold lessonDone.
        match goal with |- context [zeroModuleProgress ?n ?p0] =>
          rewrite (proj1 (zeroModuleProgress_fields n p0))
        end.
        by rewrite (student_blank st a Hr He).
    + unfold enrollStudent in H. rewrite He in H. discriminate H.
Qed.

Lemma X4_witness :
  (studentProgress enrolled5 !! bob = None
   ∧ getMyTotalProgress enrolled5 bob = Err (Revert "Student not enrolled")
   ∧ getMyCompletedLessons enrolled5 bob = Err (Revert "Student not enrolled")
   ∧ getMyLearningStreak enrolled5 bob = Err (Revert "Student not enrolled")
   ∧ (∀ m, getMyModuleProgress enrolled5 bob m
           = Err (Revert "Student not enrolled"))
   ∧ (∀ m l, isLessonCompleted enrolled5 bob m l
             = Err (Revert "Student not enrolled"))
   ∧ (∀ t' m l c,
        completeLesson enrolled5 bob t' m l c
        = Err (Revert "Student not enrolled")))
  ∧ ∃ st',
      enrollStudent enrolled5 bob (day 7) = Ok (st', [StudentEnrolled bob])
      ∧ isStudentEnrolled st' bob = true
      ∧ getMyTotalProgress st' bob = Ok 0
      ∧ getMyCompletedLessons st' bob = Ok 0
      ∧ getMyLearningStreak st' bob = Ok 0
      ∧ (∀ m, m < moduleCount enrolled5 → getMyModuleProgress st' bob m = Ok 0)
      ∧ (∀ m l, m < moduleCount enrolled5 → l < LESSONS_PER_MODULE →
         isLessonCompleted st' bob m l = Ok false)
      ∧ lastActiveDay (student st' bob) = dayOf (day 7).
Proof.
  apply (X4_enrollment_starts_blank enrolled5 bob (day 7)).
  - apply reachable_enrolled5.
  - vm_compute. reflexivity.
Defined.

Lemma student_shape st a :
  inv st →
  withinGrid (moduleCount st) (student st a)
  ∧ (∀ m, progressOf (student st a) m = countInModule (student st a) m 0 * 25).
Proof.
  intros Hinv. destruct (isEnrolled (student st a)) eqn:He.
  - pose proof (student_inv_of st a Hinv He) as Hp.
    split; [apply (si_grid _ _ Hp)|apply (si_progress _ _ Hp)].
  - rewrite (student_blank st a Hinv He). split.
    + intros k Hk. simpl in Hk. by rewrite lookup_empty in Hk.
    + intros m. rewrite countInModule_sum. reflexivity.
Qed.

Lemma countAll_sum p (l : list Z) acc :
  foldl (λ c i, countInModule p i c) acc l
  = acc + sumZ ((λ i, countInModule p i 0) <$> l).
Proof.
  revert acc. induction l as [|i l IH]; intros acc.
  - simpl. lia.
  - cbn [foldl fmap list_fmap]. rewrite IH, (countInModule_acc p i acc).
    unfold sumZ. cbn [foldr]. lia.
Qed.

Lemma sumProgress_countAll p n :
  (∀ m, progressOf p m = countInModule p m 0 * 25) →
  sumProgress p n = 25 * countAll p n.
Proof.
  intros Hp. unfold sumProgress, countAll. rewrite countAll_sum.
  generalize (seqZ 0 n). intros l. induction l as [|i l IH].
  - reflexivity.
  - cbn [fmap list_fmap]. unfold sumZ in *. cbn [foldr].
    rewrite IH, Hp. lia.
Qed.

Lemma countAll_bounds p n : 0 ≤ n → 0 ≤ countAll p n ≤ 4 * n.
Proof.
  intros Hn. unfold countAll. rewrite countAll_sum.
  assert (∀ l : list Z,
            0 ≤ sumZ ((λ i, countInModule p i 0) <$> l)
              ≤ 4 * Z.of_nat (length l)) as Hl.
  { intros l. induction l as [|i l IH]; [simpl; lia|].
    cbn [fmap list_fmap length]. rewrite Nat2Z.inj_succ.
    pose proof (countInModule_range p i). unfold sumZ in *. cbn [foldr]. lia. }
  specialize (Hl (seqZ 0 n)). rewrite length_seqZ in Hl. lia.
Qed.

Lemma completedTotal_empty p : lessonCompleted p = ∅ → completedTotal p = 0.
Proof.
  intros Hp. unfold completedTotal, trueEntries.
  by rewrite Hp, map_filter_empty, dom_empty_L, size_empty.
Qed.

Lemma totals_blank n p :
  4 ≤ n → lessonCompleted p = ∅ → completedLessons p = 0 →
  totalProgress p = 0 → totals_inv n p.
Proof.
  intros Hn Hm Hc Ht. split.
  - by rewrite Hc, completedTotal_empty.
  - exists n. split; [lia|]. split.
    + intros k Hk. rewrite Hm in Hk. by rewrite lookup_empty in Hk.
    + by rewrite Ht, completedTotal_empty.
Qed.

Lemma totals_updated n p :
  4 ≤ n → student_inv n p →
  completedLessons p = countAll p n → totalProgress p = sumProgress p n / n →
  totals_inv n p.
Proof.
  intros Hn Hp Hc Ht.
  pose proof (completedTotal_countAll n p (si_grid _ _ Hp)) as Hall.
  split; [by rewrite Hall|].
  exists n. split; [lia|]. split; [apply (si_grid _ _ Hp)|].
  by rewrite Ht, Hall, (sumProgress_countAll p n (si_progress _ _ Hp)).
Qed.

Lemma totals_mono n n' p : n ≤ n' → totals_inv n p → totals_inv n' p.
Proof.
  intros Hn [Hc (n0 & Hn0 & Hg & Ht)]. split; [done|].
  exists n0. split; [lia|done].
Qed.

Lemma totals_exec st tx :
  inv st → tx_wf tx →
  (∀ a, totals_inv (moduleCount st) (student st a)) →
  ∀ a, totals_inv (moduleCount (exec st tx)) (student (exec st tx) a).
Proof.
  intros Hinv Hwf Hall a.
  pose proof (inv_exec st tx Hinv Hwf) as Hinv'. revert Hinv'.
  unfold exec. destruct (run st tx) as [[st' evs]|f] eqn:Hrun; [|by intros _].
  intros Hinv'. pose proof (inv_count st' Hinv') as Hn'.
  unfold run in Hrun. destruct (tx_call tx) as [|m l c|nm k|m].
  - pose proof (enrollStudent_record _ _ _ _ _ Hrun)
      as (He' & _ & _ & Ht & Hc & Hn & _).
    pose proof Hrun as (He & Hst & _)%enrollStudent_inv.
    destruct (decide (tx_sender tx = a)) as [Heq|Hne].
    + rewrite <- Heq. apply totals_blank; [lia| |done|done].
      rewrite Hst, student_set_eq.
      match goal with |- context [zeroModuleProgress ?n ?p0] =>
        rewrite (proj1 (zeroModuleProgress_fields n p0))
      end.
      by rewrite (student_blank st _ Hinv He).
    + rewrite Hn, Hst, student_set_ne by done. apply Hall.
  - pose proof Hrun as (_ & _ & _ & _ & _ & Hst & _)%completeLesson_inv.
    destruct (decide (tx_sender tx = a)) as [Heq|Hne].
    + rewrite <- Heq.
      assert (moduleCount st' = moduleCount st) as Hn by (by rewrite Hst).
      apply totals_updated; [lia| | |].
      * apply (inv_students st' Hinv' (tx_sender tx)). apply student_enrolled.
        by apply (completeLesson_enrolled _ _ _ _ _ _ _ _ Hrun).
      * rewrite Hn, Hst, student_set_eq.
        apply (recomputed_fields (moduleCount st) m).
      * rewrite Hn, Hst, student_set_eq.
        apply (recomputed_fields (moduleCount st) m).
    + rewrite Hst, student_set_ne by done. apply Hall.
  - apply addModule_inv in Hrun as (_ & _ & -> & _).
    apply (totals_mono (moduleCount st)); [simpl; lia|]. apply Hall.
  - apply toggleModule_inv in Hrun as (_ & _ & -> & _). apply Hall.
Qed.

Lemma reachable_totals st :
  reachable st → ∀ a, totals_inv (moduleCount st) (student st a).
Proof.
  induction 1 as [deployer _|st tx Hr IH Hwf].
  - intros a. apply totals_blank; [simpl; lia|done..].
  - apply totals_exec; [by apply reachable_inv|done|done].
Qed.

(** X5. In every reachable state the stored [completedLessons] of every
    account is the number of [true] flags of its matrix, whatever calls were
    made since it was computed, and lies between 0 and 4 times the module
    count; [getMyCompletedLessons] returns that number to an enrolled
    caller. *)
Theorem X5_completedLessons_counts_flags st a :
  reachable st →
  completedLessons (student st a) = completedTotal (student st a)
  ∧ 0 ≤ completedLessons (student st a) ≤ LESSONS_PER_MODULE * moduleCount st
  ∧ (isStudentEnrolled st a = true →
     getMyCompletedLessons st a = Ok (completedTotal (student st a))).
Proof.
  intros Hr. pose proof (reachable_totals st Hr a) as [Hc _].
  apply reachable_inv in Hr.
  destruct (student_shape st a Hr) as [Hg _].
  split; [exact Hc|]. split.
  - rewrite Hc, (completedTotal_countAll _ _ Hg).
    pose proof (inv_count st Hr). unfold LESSONS_PER_MODULE.
    apply countAll_bounds. lia.
  - unfold isStudentEnrolled, getMyCompletedLessons. intros ->.
    by rewrite require_true, Hc.
Qed.

Lemma X5_witness :
  let st := execs fourDone othersAct in
  completedLessons (student st alice) = completedTotal (student st alice)
  ∧ 0 ≤ completedLessons (student st alice)
      ≤ LESSONS_PER_MODULE * moduleCount st
  ∧ (isStudentEnrolled st alice = true →
     getMyCompletedLessons st alice = Ok (completedTotal (student st alice))).
Proof.
  apply (X5_completedLessons_counts_flags (execs fourDone othersAct) alice).
  apply reachable_execs; [apply reachable_fourDone|].
  unfold othersAct. solve_wf.
Defined.

Lemma percent_of_lessons c n :
  25 * c / n = percentage c (LESSONS_PER_MODULE * n).
Proof.
  unfold percentage, LESSONS_PER_MODULE.
  destruct (decide (n = 0)) as [->|Hn].
  - by rewrite Z.mul_0_r, !Z.div_0_r.
  - replace (c * 100) with (4 * (25 * c)) by lia.
    by rewrite Z.div_mul_cancel_l.
Qed.

(** X6. After a successful [completeLesson] on a reachable state the
    caller's [totalProgress] is the truncated percentage of its completed
    lessons among all recordable lessons, [100 * completedLessons /
    (4 * moduleCount)]: the module percentages are exact multiples of 25, so
    averaging them loses nothing before the final division. It is 100
    exactly when every lesson of every module is completed. *)
Theorem X6_totalProgress_lesson_weighted st a t m l c st' evs :
  reachable st →
  is_uint8 m → is_uint8 l →
  completeLesson st a t m l c = Ok (st', evs) →
  let p := student st' a in
  let lessons := LESSONS_PER_MODULE * moduleCount st' in
  totalProgress p = percentage (completedLessons p) lessons
  ∧ getMyTotalProgress st' a = Ok (percentage (completedTotal p) lessons)
  ∧ (totalProgress p = 100 ↔ completedLessons p = lessons).
Proof.
  intros Hr Hm Hl H p lessons.
  destruct (completeLesson_student_inv _ _ _ _ _ _ _ _ Hr Hm Hl H)
    as (Hn & Hp & Hinv).
  fold p in Hp, Hinv.
  assert (inv st') as Hinv'.
  { destruct Hm as [Hm _], Hl as [Hl _].
    by apply (inv_completeLesson _ _ _ _ _ _ _ _ (reachable_inv _ Hr) Hm Hl H). }
  pose proof (inv_count st' Hinv') as Hcount.
  assert (completedLessons p = countAll p (moduleCount st')) as Hc.
  { rewrite Hp, Hn. apply (recomputed_fields (moduleCount st) m). }
  assert (totalProgress p = percentage (completedLessons p) lessons) as Ht.
  { unfold lessons. rewrite <- percent_of_lessons, Hc.
    rewrite <- (sumProgress_countAll p _ (si_progress _ _ Hinv)).
    rewrite Hp, Hn. apply (recomputed_fields (moduleCount st) m). }
  split; [exact Ht|]. split.
  - unfold getMyTotalProgress. fold p. rewrite (si_enrolled _ _ Hinv).
    rewrite require_true, Ht, Hc.
    by rewrite (completedTotal_countAll _ _ (si_grid _ _ Hinv)).
  - assert (0 ≤ countAll p (moduleCount st') ≤ 4 * moduleCount st') as Hb
      by (apply countAll_bounds; lia).
    rewrite Ht, Hc. unfold percentage, lessons, LESSONS_PER_MODULE in *.
    split.
    + intros H100.
      destruct (decide (countAll p (moduleCount st') = 4 * moduleCount st'))
        as [|Hne]; [done|].
      assert (countAll p (moduleCount st') * 100 / (4 * moduleCount st')
              < 100); [|lia].
      apply Z.div_lt_upper_bound; lia.
    + intros ->. replace (4 * moduleCount st' * 100)
        with (100 * (4 * moduleCount st')) by lia.
      apply Z.div_mul. lia.
Qed.

Lemma X6_witness :
  let p := student fourDone alice in
  let lessons := LESSONS_PER_MODULE * moduleCount fourDone in
  totalProgress p = percentage (completedLessons p) lessons
  ∧ getMyTotalProgress fourDone alice
    = Ok (percentage (completedTotal p) lessons)
  ∧ (totalProgress p = 100 ↔ completedLessons p = lessons).
Proof.
  assert (is_uint8 0 ∧ is_uint8 3) as [H0 H3]
    by (unfold is_uint8, UINT8_MAX; lia).
  assert (completeLesson threeDone alice (day 10) 0 3 true
          = Ok (fourDone, [LessonCompleted alice 0 3; ModuleCompleted alice 0;
                           ProgressUpdated alice])) as Hcall
    by (vm_compute; reflexivity).
  exact (X6_totalProgress_lesson_weighted threeDone alice (day 10) 0 3 true
           fourDone _ reachable_threeDone H0 H3 Hcall).
Defined.

(** X7. [totalProgress] is recomputed by the account's own [completeLesson]
    only. In every reachable state it is the truncated percentage of the
    account's completed lessons among the lessons of the [n0] modules that
    existed at its last recomputation, with [4 <= n0 <= moduleCount]: it is
    at most 100 and never below the percentage over the current catalog,
    and it is above it when modules were added since. *)
Theorem X7_totalProgress_as_of_last_update st a :
  reachable st →
  let p := student st a in
  (∃ n0, 4 ≤ n0 ≤ moduleCount st
         ∧ totalProgress p
           = percentage (completedLessons p) (LESSONS_PER_MODULE * n0))
  ∧ percentage (completedLessons p) (LESSONS_PER_MODULE * moduleCount st)
    ≤ totalProgress p ≤ 100.
Proof.
  intros Hr p. destruct (reachable_totals st Hr a) as [Hc (n0 & Hn0 & Hg & Ht)].
  fold p in Hc, Hg, Ht.
  assert (totalProgress p
          = percentage (completedLessons p) (LESSONS_PER_MODULE * n0)) as Hpc
    by (by rewrite Hc, <- percent_of_lessons).
  split; [by exists n0|].
  assert (0 ≤ countAll p n0 ≤ 4 * n0) as Hb by (apply countAll_bounds; lia).
  rewrite <- (completedTotal_countAll _ _ Hg), <- Hc in Hb.
  rewrite Hpc. unfold percentage, LESSONS_PER_MODULE. split.
  - apply Z.div_le_compat_l; lia.
  - apply Z.div_le_upper_bound; lia.
Qed.

Lemma X7_witness :
  let st := execs fourDone othersAct in
  let p := student st alice in
  ((∃ n0, 4 ≤ n0 ≤ moduleCount st
          ∧ totalProgress p
            = percentage (completedLessons p) (LESSONS_PER_MODULE * n0))
   ∧ percentage (completedLessons p) (LESSONS_PER_MODULE * moduleCount st)
     ≤ totalProgress p ≤ 100)
  ∧ percentage (completedLessons p) (LESSONS_PER_MODULE * moduleCount st) = 20
  ∧ totalProgress p = 25.
Proof.
  split.
  - apply (X7_totalProgress_as_of_last_update (execs fourDone othersAct) alice).
    apply reachable_execs; [apply reachable_fourDone|].
    unfold othersAct. solve_wf.
  - split; vm_compute; reflexivity.
Defined.

Lemma sumZ_same (f g : Z → Z) (l : list Z) :
  (∀ i, i ∈ l → g i = f i) → sumZ (g <$> l) = sumZ (f <$> l).
Proof.
  induction l as [|i l IH]; intros Hfg; [done|].
  cbn [fmap list_fmap]. unfold sumZ in *. cbn [foldr].
  rewrite IH by (intros j Hj; apply Hfg; by right).
  rewrite Hfg by left. done.
Qed.

Lemma sumZ_update (f g : Z → Z) (l : list Z) (m d : Z) :
  NoDup l → m ∈ l → g m = f m + d → (∀ i, i ≠ m → g i = f i) →
  sumZ (g <$> l) = sumZ (f <$> l) + d.
Proof.
  intros Hnd Hm Hgm Hg. induction Hnd as [|i l Hi Hnd IH].
  - by apply elem_of_nil in Hm.
  - cbn [fmap list_fmap]. unfold sumZ in *. cbn [foldr].
    apply elem_of_cons in Hm as [<-|Hm].
    + rewrite Hgm. fold (sumZ (g <$> l)). fold (sumZ (f <$> l)).
      rewrite (sumZ_same f g l); [lia|].
      intros j Hj. apply Hg. intros ->. done.
    + rewrite IH by done. rewrite Hg; [lia|]. intros ->. done.
Qed.

Lemma lessonDone_marked p q m l c j :
  lessonCompleted q = <[(m, l) := c]> (lessonCompleted p) →
  lessonDone q m j = if decide (j = l) then c else lessonDone p m j.
Proof.
  intros Hq. unfold lessonDone. rewrite Hq.
  destruct (decide (j = l)) as [->|Hj].
  - by rewrite lookup_insert_eq.
  - rewrite lookup_insert_ne; [done|]. intros [= Heq]. done.
Qed.

Lemma countInModule_marked p q m l c :
  lessonCompleted q = <[(m, l) := c]> (lessonCompleted p) →
  0 ≤ l < LESSONS_PER_MODULE →
  countInModule q m 0 = countInModule p m 0 + (b2z c - b2z (lessonDone p m l)).
Proof.
  intros Hq Hl. rewrite !countInModule_sum.
  rewrite !(lessonDone_marked p q m l c _ Hq).
  unfold LESSONS_PER_MODULE in Hl.
  assert (l = 0 ∨ l = 1 ∨ l = 2 ∨ l = 3) as [-> | [-> | [-> | ->]]] by lia;
    simpl; lia.
Qed.

(** X8. A successful [completeLesson] on a reachable state moves the
    caller's [completedLessons] by the change of the one flag it stores,
    and the percentage of the module by 25 times that change: plus one
    lesson and 25 points when a lesson not yet completed is completed,
    minus one lesson and 25 points when a completed lesson is taken back,
    nothing when the flag is stored again with the value it had. *)
Theorem X8_completion_delta st a t m l c st' evs :
  reachable st →
  is_uint8 m → is_uint8 l →
  completeLesson st a t m l c = Ok (st', evs) →
  let p := student st a in
  let p' := student st' a in
  let delta := b2z c - b2z (lessonDone p m l) in
  completedLessons p' = completedLessons p + delta
  ∧ progressOf p' m = progressOf p m + 25 * delta.
Proof.
  intros Hr Hm Hl H p p' delta.
  destruct (completeLesson_student_inv _ _ _ _ _ _ _ _ Hr Hm Hl H)
    as (Hn & Hp' & Hinv').
  fold p' in Hp', Hinv'.
  pose proof (reachable_totals st Hr a) as [Hc _]. fold p in Hc.
  apply reachable_inv in Hr.
  destruct (student_shape st a Hr) as [Hg Hprog]. fold p in Hg, Hprog.
  pose proof H as (_ & Hlt & Hll & _)%completeLesson_inv.
  assert (lessonCompleted p' = <[(m, l) := c]> (lessonCompleted p)) as Hmat
    by (rewrite Hp'; apply completedRecord_matrix).
  assert (countInModule p' m 0 = countInModule p m 0 + delta) as Hrow.
  { apply (countInModule_marked p p' m l c Hmat). destruct Hl. lia. }
  split.
  - assert (completedLessons p' = countAll p' (moduleCount st)) as ->.
    { rewrite Hp'. apply (recomputed_fields (moduleCount st) m). }
    rewrite Hc, (completedTotal_countAll _ _ Hg).
    unfold countAll. rewrite !countAll_sum, !Z.add_0_l.
    apply (sumZ_update _ _ _ m).
    + apply NoDup_seqZ.
    + apply elem_of_seqZ. destruct Hm. lia.
    + exact Hrow.
    + intros i Hi. by apply (countInModule_other_module p p' m l c).
  - rewrite (si_progress _ _ Hinv'), Hprog, Hrow. lia.
Qed.

Lemma X8_witness :
  completedLessons (student fourDone alice)
  = completedLessons (student threeDone alice)
    + (b2z true - b2z (lessonDone (student threeDone alice) 0 3))
  ∧ progressOf (student fourDone alice) 0
    = progressOf (student threeDone alice) 0
      + 25 * (b2z true - b2z (lessonDone (student threeDone alice) 0 3)).
Proof.
  assert (is_uint8 0 ∧ is_uint8 3) as [H0 H3]
    by (unfold is_uint8, UINT8_MAX; lia).
  assert (completeLesson threeDone alice (day 10) 0 3 true
          = Ok (fourDone, [LessonCompleted alice 0 3; ModuleCompleted alice 0;
                           ProgressUpdated alice])) as Hcall
    by (vm_compute; reflexivity).
  exact (X8_completion_delta threeDone alice (day 10) 0 3 true
           fourDone _ reachable_threeDone H0 H3 Hcall).
Defined.

Lemma progress_eq p q :
  lessonCompleted p = lessonCompleted q →
  moduleProgress p = moduleProgress q →
  totalProgress p = totalProgress q →
  completedLessons p = completedLessons q →
  learningStreak p = learningStreak q →
  lastActiveDay p = lastActiveDay q →
  isEnrolled p = isEnrolled q →
  p = q.
Proof.
  destruct p, q. simpl. intros -> -> -> -> -> -> ->. reflexivity.
Qed.

Lemma sumProgress_ext p q n :
  moduleProgress p = moduleProgress q → sumProgress p n = sumProgress q n.
Proof.
  intros H. unfold sumProgress. apply sumZ_same. intros i _.
  unfold progressOf. by rewrite H.
Qed.

Lemma countAll_ext p q n :
  lessonCompleted p = lessonCompleted q → countAll p n = countAll q n.
Proof.
  intros H. unfold countAll. rewrite !countAll_sum. f_equal.
  apply sumZ_same. intros i _. by apply countInModule_ext.
Qed.

Lemma applied_fields n d m l c p :
  let q := applied n d m l c p in
  lessonCompleted q = <[(m, l) := c]> (lessonCompleted p)
  ∧ moduleProgress q = <[m := countInModule q m 0 * 25]> (moduleProgress p)
  ∧ totalProgress q = sumProgress q n / n
  ∧ completedLessons q = countAll q n
  ∧ learningStreak q = learningStreak (streaked d c p)
  ∧ lastActiveDay q = lastActiveDay (streaked d c p)
  ∧ isEnrolled q = isEnrolled p.
Proof.
  unfold applied, recomputed, streaked. simpl.
  destruct ((lastActiveDay p <? d) && c); repeat split.
Qed.

Lemma applied_streaked n d m l c p :
  streaked d c (applied n d m l c p) = applied n d m l c p.
Proof.
  apply streaked_same_day. destruct c; [left|by right].
  destruct (applied_fields n d m l true p) as (_ & _ & _ & _ & _ & -> & _).
  unfold streaked. rewrite andb_true_r.
  destruct (lastActiveDay p <? d) eqn:Hlt; simpl; [lia|].
  by apply Z.ltb_ge in Hlt.
Qed.

Lemma applied_idem n d m l c p :
  applied n d m l c (applied n d m l c p) = applied n d m l c p.
Proof.
  set (q := applied n d m l c p). set (r := applied n d m l c q).
  destruct (applied_fields n d m l c p)
    as (Hm & Hp & Ht & Hc & Hs & Hd & He).
  destruct (applied_fields n d m l c q)
    as (Hm' & Hp' & Ht' & Hc' & Hs' & Hd' & He').
  fold q in Hm, Hp, Ht, Hc, Hs, Hd, He.
  fold r in Hm', Hp', Ht', Hc', Hs', Hd', He'.
  assert (lessonCompleted r = lessonCompleted q) as Hmat
    by (by rewrite Hm', Hm, insert_insert_eq).
  assert (moduleProgress r = moduleProgress q) as Hmap.
  { rewrite Hp', Hp, insert_insert_eq.
    by rewrite (countInModule_ext r q m 0 Hmat). }
  apply progress_eq.
  - exact Hmat.
  - exact Hmap.
  - by rewrite Ht', Ht, (sumProgress_ext r q n Hmap).
  - by rewrite Hc', Hc, (countAll_ext r q n Hmat).
  - rewrite Hs'. unfold q. by rewrite applied_streaked.
  - rewrite Hd'. unfold q. by rewrite applied_streaked.
  - exact He'.
Qed.

Lemma applied_no_overflow n d m l c p :
  ¬ streakOverflows d c (applied n d m l c p).
Proof.
  intros (-> & Hd & _). revert Hd.
  unfold applied, recomputed, streaked. simpl.
  destruct (lastActiveDay p <? d) eqn:Hlt; simpl; [lia|].
  apply Z.ltb_ge in Hlt. lia.
Qed.

(** X9. Repeating a successful [completeLesson] with the same arguments in
    a block of the same timestamp changes nothing: on a reachable state the
    second call succeeds, leaves the storage the first call produced and
    logs the same events. *)
Theorem X9_completeLesson_idempotent st a t m l c st' evs :
  reachable st →
  is_uint8 m → is_uint8 l →
  completeLesson st a t m l c = Ok (st', evs) →
  completeLesson st' a t m l c = Ok (st', evs).
Proof.
  intros Hr [Hm0 Hm8] [Hl0 Hl8] H. apply reachable_inv in Hr.
  pose proof (inv_completeLesson _ _ _ _ _ _ _ _ Hr Hm0 Hl0 H) as Hinv'.
  pose proof (completeLesson_enrolled _ _ _ _ _ _ _ _ H) as He'.
  apply completeLesson_inv in H as (He & Hm & Hl & Ha & _ & Hst & ->).
  assert (student st' a = applied (moduleCount st) (dayOf t) m l c (student st a))
    as Hp' by (by rewrite Hst, student_set_eq).
  rewrite completeLesson_Ok; try done.
  - assert (completedRecord st' a t m l c = student st' a) as ->.
    { unfold completedRecord, lessonMarked.
      change (applied (moduleCount st') (dayOf t) m l c (student st' a)
              = student st' a).
      rewrite Hp'. replace (moduleCount st') with (moduleCount st)
        by (by rewrite Hst).
      apply applied_idem. }
    f_equal. f_equal.
    + rewrite Hp', Hst. unfold applied. fold (lessonMarked st a m l c).
      fold (completedRecord st a t m l c). apply set_student_twice.
    + f_equal. unfold progressEvents.
      rewrite (countInModule_ext (lessonMarked st' a m l c)
                 (lessonMarked st a m l c) m 0); [done|].
      unfold lessonMarked. simpl. rewrite Hp'. unfold applied.
      rewrite (proj1 (recomputed_fields _ _ _)).
      rewrite (proj1 (streaked_fields _ _ _)). simpl.
      by rewrite insert_insert_eq.
  - by rewrite Hst.
  - by rewrite Hst.
  - rewrite Hp'. apply applied_no_overflow.
Qed.

Lemma X9_witness :
  completeLesson fourDone alice (day 10) 0 3 true
  = Ok (fourDone, [LessonCompleted alice 0 3; ModuleCompleted alice 0;
                   ProgressUpdated alice]).
Proof.
  assert (is_uint8 0 ∧ is_uint8 3) as [H0 H3]
    by (unfold is_uint8, UINT8_MAX; lia).
  assert (completeLesson threeDone alice (day 10) 0 3 true
          = Ok (fourDone, [LessonCompleted alice 0 3; ModuleCompleted alice 0;
                           ProgressUpdated alice])) as Hcall
    by (vm_compute; reflexivity).
  exact (X9_completeLesson_idempotent threeDone alice (day 10) 0 3 true
           fourDone _ reachable_threeDone H0 H3 Hcall).
Defined.

Lemma exec_catalog st tx :
  owner (exec st tx) = owner st
  ∧ moduleCount st ≤ moduleCount (exec st tx) ≤ moduleCount st + 1
  ∧ (∀ m, m < moduleCount st →
     name (moduleAt (exec st tx) m) = name (moduleAt st m)
     ∧ totalLessons (moduleAt (exec st tx) m) = totalLessons (moduleAt st m))
  ∧ (tx_sender tx ≠ owner st →
     learningModules (exec st tx) = learningModules st
     ∧ moduleCount (exec st tx) = moduleCount st).
Proof.
  unfold exec. destruct (run st tx) as [[st' evs]|f] eqn:Hrun.
  2: { split; [done|]. split; [lia|]. done. }
  unfold run in Hrun. destruct (tx_call tx) as [|m l c|nm k|m].
  - apply enrollStudent_inv in Hrun as (_ & -> & _). simpl.
    split; [done|]. split; [lia|]. done.
  - apply completeLesson_inv in Hrun as (_ & _ & _ & _ & _ & -> & _). simpl.
    split; [done|]. split; [lia|]. done.
  - apply addModule_inv in Hrun as (Ho & _ & -> & _). simpl.
    split; [done|]. split; [lia|]. split; [|done].
    intros i Hi. unfold moduleAt. simpl.
    rewrite lookup_insert_ne by lia. done.
  - apply toggleModule_inv in Hrun as (Ho & _ & -> & _). simpl.
    split; [done|]. split; [lia|]. split; [|done].
    intros i Hi. unfold moduleAt. simpl.
    destruct (decide (m = i)) as [->|Hne].
    + by rewrite lookup_insert_eq.
    + by rewrite lookup_insert_ne.
Qed.

(** X10. Along any sequence of calls the owner never changes, the module
    count never decreases, and a module, once in the catalog, keeps its
    name and its lesson count for ever: only its [isActive] flag can
    change. If none of the calls is sent by the owner, the catalog and the
    module count are as before. *)
Theorem X10_catalog_append_only st txs :
  owner (execs st txs) = owner st
  ∧ moduleCount st ≤ moduleCount (execs st txs)
  ∧ (∀ m, m < moduleCount st →
     name (moduleAt (execs st txs) m) = name (moduleAt st m)
     ∧ totalLessons (moduleAt (execs st txs) m) = totalLessons (moduleAt st m))
  ∧ (Forall (λ tx, tx_sender tx ≠ owner st) txs →
     learningModules (execs st txs) = learningModules st
     ∧ moduleCount (execs st txs) = moduleCount st).
Proof.
  revert st. unfold execs. induction txs as [|tx txs IH]; intros st.
  - simpl. split; [done|]. split; [lia|]. done.
  - cbn [foldl].
    destruct (exec_catalog st tx) as (Ho & Hn & Hm & Hother).
    destruct (IH (exec st tx)) as (Ho' & Hn' & Hm' & Hother').
    split; [by rewrite Ho'|]. split; [lia|]. split.
    + intros m Hlt. destruct (Hm m Hlt) as [<- <-]. apply Hm'. lia.
    + intros Hall. apply Forall_cons in Hall as [Htx Hall].
      destruct (Hother Htx) as [<- <-]. apply Hother'.
      by rewrite Ho.
Qed.

Lemma X10_witness :
  learningModules (execs fourDone [mkTx bob (day 12) (CallToggle 0);
                                   mkTx bob (day 12) (CallAddModule "Mine" 1)])
  = learningModules fourDone
  ∧ moduleCount (execs fourDone [mkTx bob (day 12) (CallToggle 0);
                                 mkTx bob (day 12) (CallAddModule "Mine" 1)])
    = moduleCount fourDone.
Proof.
  apply (X10_catalog_append_only fourDone).
  repeat (apply List.Forall_cons; [by vm_compute|]). apply List.Forall_nil.
Defined.

(** X11. In every reachable state [getModuleInfo] succeeds for the ids
    below the module count and for no other, and the four modules of the
    constructor still have their names and 4 lessons, so that for them the
    percentage is the one out of their own lesson count. *)
Theorem X11_builtin_modules st :
  reachable st →
  (∀ m, is_uint8 m →
     (m < getTotalModules st →
      getModuleInfo st m
      = Ok (name (moduleAt st m), totalLessons (moduleAt st m),
            isActive (moduleAt st m))
        ∧ is_Some (learningModules st !! m))
     ∧ (getTotalModules st ≤ m →
        getModuleInfo st m = Err (Revert "Invalid module ID")))
  ∧ 4 ≤ getTotalModules st ≤ 255
  ∧ getModuleInfo st 0
    = Ok ("Cryptography Basics"%string, LESSONS_PER_MODULE,
          isActive (moduleAt st 0))
  ∧ getModuleInfo st 1
    = Ok ("Blockchain Fundamentals"%string, LESSONS_PER_MODULE,
          isActive (moduleAt st 1))
  ∧ getModuleInfo st 2
    = Ok ("Privacy Technologies"%string, LESSONS_PER_MODULE,
          isActive (moduleAt st 2))
  ∧ getModuleInfo st 3
    = Ok ("Advanced Applications"%string, LESSONS_PER_MODULE,
          isActive (moduleAt st 3)).
Proof.
  intros Hr. pose proof (inv_count st (reachable_inv st Hr)) as Hn.
  split; [|split; [exact Hn|]].
  - intros m [Hm0 _]. unfold getTotalModules, getModuleInfo. split.
    + intros Hlt. rewrite (proj2 (Z.ltb_lt m (moduleCount st)) Hlt).
      split; [done|]. apply (inv_modules st (reachable_inv st Hr)). lia.
    + intros Hge. by rewrite (proj2 (Z.ltb_ge m (moduleCount st)) Hge).
  - assert (∀ i, 0 ≤ i < 4 →
              name (moduleAt st i) = name (moduleAt (constructor 0) i)
              ∧ totalLessons (moduleAt st i) = LESSONS_PER_MODULE) as Hbuilt.
    { clear Hn. induction Hr as [deployer _|st tx Hr IH Hwf]; intros i Hi.
      - assert (i = 0 ∨ i = 1 ∨ i = 2 ∨ i = 3) as [-> | [-> | [-> | ->]]]
          by lia; done.
      - pose proof (inv_count st (reachable_inv st Hr)) as Hn.
        destruct (exec_catalog st tx) as (_ & _ & Hm & _).
        destruct (Hm i) as [-> ->]; [lia|]. by apply IH. }
    unfold getModuleInfo.
    rewrite !(proj2 (Z.ltb_lt _ (moduleCount st))) by lia.
    destruct (Hbuilt 0) as [-> ->]; [lia|].
    destruct (Hbuilt 1) as [-> ->]; [lia|].
    destruct (Hbuilt 2) as [-> ->]; [lia|].
    destruct (Hbuilt 3) as [-> ->]; [lia|].
    done.
Qed.

Lemma X11_witness :
  let st := execs fourDone othersAct in
  (∀ m, is_uint8 m →
     (m < getTotalModules st →
      getModuleInfo st m
      = Ok (name (moduleAt st m), totalLessons (moduleAt st m),
            isActive (moduleAt st m))
        ∧ is_Some (learningModules st !! m))
     ∧ (getTotalModules st ≤ m →
        getModuleInfo st m = Err (Revert "Invalid module ID")))
  ∧ 4 ≤ getTotalModules st ≤ 255
  ∧ getModuleInfo st 0
    = Ok ("Cryptography Basics"%string, LESSONS_PER_MODULE,
          isActive (moduleAt st 0))
  ∧ getModuleInfo st 1
    = Ok ("Blockchain Fundamentals"%string, LESSONS_PER_MODULE,
          isActive (moduleAt st 1))
  ∧ getModuleInfo st 2
    = Ok ("Privacy Technologies"%string, LESSONS_PER_MODULE,
          isActive (moduleAt st 2))
  ∧ getModuleInfo st 3
    = Ok ("Advanced Applications"%string, LESSONS_PER_MODULE,
          isActive (moduleAt st 3)).
Proof.
  apply (X11_builtin_modules (execs fourDone othersAct)).
  apply reachable_execs; [apply reachable_fourDone|].
  unfold othersAct. solve_wf.
Defined.

(** X12. Deactivating a module closes it for writing and for nothing else.
    After a successful [toggleModule] every read-only function answers
    every account as before, [getModuleInfo] shows the module with its
    flag negated and the other modules unchanged, and, when the module was
    active, every [completeLesson] of an enrolled account on one of its
    four lessons fails with "Module not active", while the lessons it had
    recorded there stay readable. *)
Theorem X12_inactive_module_stays_readable st sender m st' evs :
  toggleModule st sender m = Ok (st', evs) →
  (∀ a, sameViews st st' a)
  ∧ getModuleInfo st' m
    = Ok (name (moduleAt st m), totalLessons (moduleAt st m),
          negb (isActive (moduleAt st m)))
  ∧ (∀ i, i ≠ m → getModuleInfo st' i = getModuleInfo st i)
  ∧ (isActive (moduleAt st m) = true →
     ∀ a t l c,
       isStudentEnrolled st a = true → l < LESSONS_PER_MODULE →
       completeLesson st' a t m l c = Err (Revert "Module not active")
       ∧ isLessonCompleted st' a m l = Ok (lessonDone (student st a) m l)).
Proof.
  intros (_ & Hm & -> & _)%toggleModule_inv.
  split; [|split; [|split]].
  - intros a. by apply sameViews_record.
  - unfold getModuleInfo, moduleAt. simpl.
    rewrite (proj2 (Z.ltb_lt m (moduleCount st)) Hm), require_true.
    by rewrite lookup_insert_eq.
  - intros i Hi. unfold getModuleInfo, moduleAt. simpl.
    by rewrite lookup_insert_ne.
  - intros Hact a t l c He Hl. unfold isStudentEnrolled in He.
    set (st' := set_module m _ st).
    assert (student st' a = student st a) as Hp by reflexivity.
    assert (moduleCount st' = moduleCount st) as Hn by reflexivity.
    assert (isActive (moduleAt st' m) = false) as Hoff.
    { unfold moduleAt at 1, st'. simpl. rewrite lookup_insert_eq. simpl.
      by rewrite Hact. }
    split.
    + unfold completeLesson. rewrite Hp, Hn, He, require_true.
      rewrite (proj2 (Z.ltb_lt m (moduleCount st)) Hm), require_true.
      rewrite (proj2 (Z.ltb_lt l LESSONS_PER_MODULE) Hl), require_true.
      by rewrite Hoff.
    + unfold isLessonCompleted. rewrite Hp, Hn, He, require_true.
      rewrite (proj2 (Z.ltb_lt m (moduleCount st)) Hm), require_true.
      by rewrite (proj2 (Z.ltb_lt l LESSONS_PER_MODULE) Hl), require_true.
Qed.

Lemma X12_witness :
  (∀ a, sameViews fourDone moduleClosed a)
  ∧ getModuleInfo moduleClosed 0
    = Ok (name (moduleAt fourDone 0), totalLessons (moduleAt fourDone 0),
          negb (isActive (moduleAt fourDone 0)))
  ∧ (∀ i, i ≠ 0 → getModuleInfo moduleClosed i = getModuleInfo fourDone i)
  ∧ completeLesson moduleClosed alice (day 12) 0 3 false
    = Err (Revert "Module not active")
  ∧ isLessonCompleted moduleClosed alice 0 3 = Ok true.
Proof.
  assert (toggleModule fourDone deployer 0 = Ok (moduleClosed, [])) as Hcall
    by (vm_compute; reflexivity).
  destruct (X12_inactive_module_stays_readable _ _ _ _ _ Hcall)
    as (Hviews & Hinfo & Hothers & Hclosed).
  split; [exact Hviews|]. split; [exact Hinfo|]. split; [exact Hothers|].
  apply (Hclosed eq_refl alice (day 12) 3 false); vm_compute; reflexivity.
Defined.

Lemma panic_is_streak_overflow st tx code :
  reachable st → tx_wf tx →
  run st tx = Err (Panic code) →
  code = 17
  ∧ ∃ m l,
      tx_call tx = CallComplete m l true
      ∧ streakOverflows (dayOf (tx_timestamp tx)) true (student st (tx_sender tx)).
Proof.
  intros Hr _ H. apply reachable_inv in Hr. unfold run in H.
  destruct (tx_call tx) as [|m l c|nm k|m].
  - unfold enrollStudent in H.
    destruct (negb (isEnrolled (student st (tx_sender tx)))); discriminate H.
  - set (a := tx_sender tx) in *. set (t := tx_timestamp tx) in *.
    destruct (isEnrolled (student st a)) eqn:He;
      [|unfold completeLesson in H; rewrite He in H; discriminate H].
    destruct (m <? moduleCount st) eqn:Hm;
      [|unfold completeLesson in H; rewrite He, Hm in H; discriminate H].
    destruct (l <? LESSONS_PER_MODULE) eqn:Hl;
      [|unfold completeLesson in H; rewrite He, Hm, Hl in H; discriminate H].
    destruct (isActive (moduleAt st m)) eqn:Ha;
      [|unfold completeLesson in H; rewrite He, Hm, Hl, Ha in H;
        discriminate H].
    apply Z.ltb_lt in Hm, Hl.
    assert (streakOverflows (dayOf t) c (student st a)) as Hov.
    { destruct c.
      - destruct (decide (dayOf t = lastActiveDay (student st a) + 1)) as [Hd|Hd].
        + destruct (decide (learningStreak (student st a) = UINT32_MAX))
            as [Hs|Hs]; [done|].
          rewrite completeLesson_Ok in H; try done.
          intros (_ & _ & ?). done.
        + rewrite completeLesson_Ok in H; try done.
          intros (_ & ? & _). done.
      - rewrite completeLesson_Ok in H; try done.
        intros (? & _). done. }
    pose proof Hov as (-> & _ & _).
    unfold completeLesson in H.
    rewrite He, require_true in H.
    rewrite (proj2 (Z.ltb_lt m (moduleCount st)) Hm), require_true in H.
    rewrite (proj2 (Z.ltb_lt l LESSONS_PER_MODULE) Hl), require_true in H.
    rewrite Ha, require_true in H.
    rewrite updateStreak_Panic in H by exact Hov.
    injection H as <-. split; [done|]. by exists m, l.
  - unfold addModule in H.
    destruct (tx_sender tx =? owner st); [|discriminate H].
    destruct (moduleCount st <? 255); discriminate H.
  - unfold toggleModule in H.
    destruct (tx_sender tx =? owner st); [|discriminate H].
    destruct (m <? moduleCount st); discriminate H.
Qed.

(** X13. A call on a reachable state never divides by zero and never
    overflows a sum: as long as the sender's streak is below 2^32 - 1, where
    the checked increment of the streak would abort, every call either
    succeeds or fails with the reason of a [require]. *)
Theorem X13_no_panic st tx :
  reachable st → tx_wf tx →
  learningStreak (student st (tx_sender tx)) < UINT32_MAX →
  (∃ st' evs, run st tx = Ok (st', evs))
  ∨ (∃ reason, run st tx = Err (Revert reason)).
Proof.
  intros Hr Hwf Hs. destruct (run st tx) as [[st' evs]|[reason|code]] eqn:H.
  - left. by exists st', evs.
  - right. by exists reason.
  - apply (panic_is_streak_overflow st tx code Hr Hwf) in H
      as (_ & m & l & _ & _ & _ & Hmax). lia.
Qed.

Lemma X13_witness :
  (∃ st' evs,
     run fourDone (mkTx alice (day 11) (CallComplete 1 0 true)) = Ok (st', evs))
  ∨ (∃ reason,
       run fourDone (mkTx alice (day 11) (CallComplete 1 0 true))
       = Err (Revert reason)).
Proof.
  apply (X13_no_panic fourDone (mkTx alice (day 11) (CallComplete 1 0 true))).
  - apply reachable_fourDone.
  - solve_wf.
  - vm_compute. reflexivity.
Defined.

Lemma streaked_monotone d c p :
  lastActiveDay p ≤ lastActiveDay (streaked d c p)
  ∧ (lastActiveDay (streaked d c p) = lastActiveDay p →
     learningStreak (streaked d c p) = learningStreak p).
Proof.
  unfold streaked. destruct (lastActiveDay p <? d) eqn:Hlt; [|done].
  apply Z.ltb_lt in Hlt. destruct c; [|done]. simpl. split; lia.
Qed.

(** X14. The last active day of an account never goes back, whatever is
    called, and the streak moves only with it: after any call on a
    reachable state, [lastActiveDay] of every account is at least what it
    was, and if it is what it was then [learningStreak] is what it was. *)
Theorem X14_lastActiveDay_monotone st tx a :
  reachable st → tx_wf tx →
  lastActiveDay (student st a) ≤ lastActiveDay (student (exec st tx) a)
  ∧ (lastActiveDay (student (exec st tx) a) = lastActiveDay (student st a) →
     learningStreak (student (exec st tx) a) = learningStreak (student st a)).
Proof.
  intros Hr (_ & [Ht _] & _). apply reachable_inv in Hr. unfold exec.
  destruct (run st tx) as [[st' evs]|f] eqn:Hrun; [|done].
  destruct (decide (tx_sender tx = a)) as [Heq|Hne].
  2: { by rewrite (run_other _ _ _ _ _ Hrun Hne). }
  unfold run in Hrun. rewrite Heq in Hrun.
  destruct (tx_call tx) as [|m l c|nm k|m].
  - destruct (enrollStudent_record _ _ _ _ _ Hrun) as (_ & -> & -> & _).
    apply enrollStudent_inv in Hrun as (He & _).
    rewrite (student_blank st a Hr He). simpl. split; [|done].
    unfold dayOf. apply Z.div_pos; lia.
  - destruct (completeLesson_streak _ _ _ _ _ _ _ _ Hrun) as [-> ->].
    apply streaked_monotone.
  - by apply addModule_inv in Hrun as (_ & _ & -> & _).
  - by apply toggleModule_inv in Hrun as (_ & _ & -> & _).
Qed.

Lemma X14_witness :
  let tx := mkTx alice (day 12) (CallComplete 1 0 true) in
  lastActiveDay (student fourDone alice)
  ≤ lastActiveDay (student (exec fourDone tx) alice)
  ∧ (lastActiveDay (student (exec fourDone tx) alice)
     = lastActiveDay (student fourDone alice) →
     learningStreak (student (exec fourDone tx) alice)
     = learningStreak (student fourDone alice)).
Proof.
  apply (X14_lastActiveDay_monotone fourDone
           (mkTx alice (day 12) (CallComplete 1 0 true)) alice).
  - apply reachable_fourDone.
  - solve_wf.
Defined.

(** X15. The read-only functions agree with one another in every reachable
    state: for an enrolled caller and a module id below the module count,
    [isLessonCompleted] succeeds on the lessons 0 to 3 and
    [getMyModuleProgress] returns 25 times the number of them it reports
    completed. *)
Theorem X15_progress_view_counts_lesson_views st a m :
  reachable st →
  isStudentEnrolled st a = true →
  is_uint8 m → m < getTotalModules st →
  ∃ f0 f1 f2 f3,
    isLessonCompleted st a m 0 = Ok f0
    ∧ isLessonCompleted st a m 1 = Ok f1
    ∧ isLessonCompleted st a m 2 = Ok f2
    ∧ isLessonCompleted st a m 3 = Ok f3
    ∧ getMyModuleProgress st a m
      = Ok (25 * (b2z f0 + b2z f1 + b2z f2 + b2z f3)).
Proof.
  intros Hr He _ Hm. apply reachable_inv in Hr.
  unfold isStudentEnrolled in He. unfold getTotalModules in Hm.
  destruct (student_shape st a Hr) as [_ Hp].
  exists (lessonDone (student st a) m 0), (lessonDone (student st a) m 1),
    (lessonDone (student st a) m 2), (lessonDone (student st a) m 3).
  unfold isLessonCompleted, getMyModuleProgress.
  rewrite He, (proj2 (Z.ltb_lt m (moduleCount st)) Hm), !require_true.
  do 4 (split; [done|]).
  rewrite Hp, countInModule_sum. f_equal. lia.
Qed.

Lemma X15_witness :
  ∃ f0 f1 f2 f3,
    isLessonCompleted threeDone alice 0 0 = Ok f0
    ∧ isLessonCompleted threeDone alice 0 1 = Ok f1
    ∧ isLessonCompleted threeDone alice 0 2 = Ok f2
    ∧ isLessonCompleted threeDone alice 0 3 = Ok f3
    ∧ getMyModuleProgress threeDone alice 0
      = Ok (25 * (b2z f0 + b2z f1 + b2z f2 + b2z f3)).
Proof.
  apply (X15_progress_view_counts_lesson_views threeDone alice 0).
  - apply reachable_threeDone.
  - vm_compute. reflexivity.
  - unfold is_uint8, UINT8_MAX. lia.
  - vm_compute. reflexivity.
Defined.
